(** * Commit-policy hooks of the Wifi module: a shallow embedding

    The two pre-upload hooks [wifi_upload_hook.py] and [overlayable_hook.py]
    decide, from the commit message, the list of changed files and the output
    of [git branch -vv], whether an upload goes through (exit status 0) or is
    blocked (exit status 1, with guidance printed on standard output).

    Python values are embedded as follows.
    - [str] is a list of Unicode code points ([N]); [bytes] is a list of
      octets ([N]).
    - [print] and the [git] subprocess act on an explicit [World]: the text
      the subprocess answers with and the lines written so far.  A hook's
      [main] is a state-passing function from worlds to an exit status and
      a world.
    - The Unicode character database of the interpreter is not part of the
      repository: the lowercase mapping of non-ASCII code points is taken as
      a parameter ([UnicodeData]); ASCII, the white-space set and the line
      boundaries are written out. *)

From Stdlib Require Import List NArith ZArith Bool String Ascii Lia.
Import ListNotations.

Local Open Scope N_scope.

(** ** Strings and bytes *)

Definition codepoint := N.
Definition str := list codepoint.
Definition bytes := list N.

(** A literal of the source, code point by code point. *)
Definition py (s : string) : str := map N_of_ascii (list_ascii_of_string s).

(** The double-quote character, which the guidance text puts around paths. *)
Definition dquote : str := [34].

(** The case mapping of the interpreter's Unicode database outside ASCII:
    [unicode_lower before c after] is what [c] lowercases to when it stands
    between [before] (nearest code point first) and [after].  The context is
    there for the final-sigma rule; a code point may expand to several. *)
Class UnicodeData := {
  unicode_lower : str -> codepoint -> str -> str
}.

(** A database that knows the Latin-1 supplement only; it serves to run the
    definitions on concrete inputs. *)
Definition latin1 : UnicodeData :=
  {| unicode_lower := fun _ c _ =>
       if (192 <=? c) && (c <=? 222) && negb (c =? 215) then [c + 32] else [c] |}.

Module Py.

(** [a == b] on strings and bytes. *)
Fixpoint eqb (a b : list N) : bool :=
  match a, b with
  | [], [] => true
  | x :: a', y :: b' => (x =? y) && eqb a' b'
  | _, _ => false
  end.

(** [s.startswith(prefix)]. *)
Fixpoint startswith (s prefix : list N) {struct prefix} : bool :=
  match prefix, s with
  | [], _ => true
  | p :: prefix', c :: s' => (c =? p) && startswith s' prefix'
  | _ :: _, [] => false
  end.

(** [needle in haystack] on bytes: [needle] occurs as a contiguous slice. *)
Fixpoint contains (haystack needle : list N) : bool :=
  startswith haystack needle ||
  match haystack with
  | [] => false
  | _ :: rest => contains rest needle
  end.

(** Line boundaries of [str.splitlines]: LF, VT, FF, CR, FS, GS, RS, NEL,
    LINE SEPARATOR and PARAGRAPH SEPARATOR. *)
Definition is_linebreak (c : codepoint) : bool :=
  ((10 <=? c) && (c <=? 13)) || ((28 <=? c) && (c <=? 30)) ||
  (c =? 133) || (c =? 8232) || (c =? 8233).

(** Line boundaries of [bytes.splitlines]: LF and CR. *)
Definition is_bytes_linebreak (c : N) : bool := (c =? 10) || (c =? 13).

(** White space as [str.strip] sees it ([str.isspace] on one character). *)
Definition is_space (c : codepoint) : bool :=
  ((9 <=? c) && (c <=? 13)) || ((28 <=? c) && (c <=? 32)) ||
  (c =? 133) || (c =? 160) || (c =? 5760) ||
  ((8192 <=? c) && (c <=? 8202)) ||
  (c =? 8232) || (c =? 8233) || (c =? 8239) || (c =? 8287) || (c =? 12288).

(** The scan of [splitlines] without [keepends]: [line] holds, last character
    first, what the current line has so far.  A boundary closes the line, and
    CR LF counts as one boundary.  At the end of the text a line is emitted
    only when it has a character: a text that ends in a boundary has no empty
    last line. *)
Fixpoint splitlines_scan (brk : N -> bool) (line : list N) (s : list N)
  : list (list N) :=
  match s with
  | [] => match line with [] => [] | _ :: _ => [rev line] end
  | c :: s' =>
      if brk c then
        rev line ::
        match s' with
        | d :: s'' =>
            if (c =? 13) && (d =? 10) then splitlines_scan brk [] s''
            else splitlines_scan brk [] s'
        | [] => splitlines_scan brk [] s'
        end
      else splitlines_scan brk (c :: line) s'
  end.

Definition splitlines (s : str) : list str := splitlines_scan is_linebreak [] s.
Definition bytes_splitlines (s : bytes) : list bytes :=
  splitlines_scan is_bytes_linebreak [] s.

(** [s.lstrip()], [s.rstrip()] and [s.strip()] with no argument. *)
Fixpoint lstrip (s : str) : str :=
  match s with
  | [] => []
  | c :: s' => if is_space c then lstrip s' else s
  end.

Definition rstrip (s : str) : str := rev (lstrip (rev s)).

Definition strip (s : str) : str := rstrip (lstrip s).

(** [s.lower()]: ASCII letters by the fixed rule, every other code point by
    the database, in its context. *)
Definition ascii_lower (c : codepoint) : codepoint :=
  if (65 <=? c) && (c <=? 90) then c + 32 else c.

Fixpoint lower_from `{UnicodeData} (before s : str) : str :=
  match s with
  | [] => []
  | c :: s' =>
      (if c <? 128 then [ascii_lower c] else unicode_lower before c s')
        ++ lower_from (c :: before) s'
  end.

Definition lower `{UnicodeData} (s : str) : str := lower_from [] s.

End Py.

(** ** The world a hook runs in *)

(** [git_branch_vv]: what [git branch -vv] writes; [stdout]: the lines
    printed so far, oldest first. *)
Record World := mkWorld {
  git_branch_vv : bytes;
  stdout : list str
}.

Definition IO (A : Type) : Type := World -> A * World.

Definition ret {A} (a : A) : IO A := fun w => (a, w).

Definition bind {A B} (m : IO A) (k : A -> IO B) : IO B :=
  fun w => let (a, w') := m w in k a w'.

Notation "x <- m ;; k" := (bind m (fun x => k))
  (at level 61, m at next level, right associativity).
Notation "m ;;; k" := (bind m (fun _ => k))
  (at level 61, right associativity).

(** [print(line)]; [print()] is [print_ []]. *)
Definition print_ (line : str) : IO unit :=
  fun w => (tt, mkWorld (git_branch_vv w) (stdout w ++ [line])).

(** [subprocess.check_output(['git', 'branch', '-vv'])], for a [git] that
    ran and answered. *)
Definition check_output_git_branch_vv : IO bytes :=
  fun w => (git_branch_vv w, w).

(** The loop of [is_in_aosp] over the lines of the subprocess output: the
    current branch is the line that starts with an asterisk; without one the
    hook assumes AOSP. *)
Fixpoint is_in_aosp_loop (branches : list bytes) : bool :=
  match branches with
  | [] => true
  | branch :: rest =>
      if Py.startswith branch [42] then Py.contains branch (py "[aosp/")
      else is_in_aosp_loop rest
  end.

(** The loop shared by the message checks: the first line that, stripped and
    lowercased, starts with [marker] answers [True]. *)
Fixpoint any_line_startswith `{UnicodeData} (marker : str) (lines : list str)
  : bool :=
  match lines with
  | [] => false
  | line :: rest =>
      let line := Py.lower (Py.strip line) in
      if Py.startswith line marker then true
      else any_line_startswith marker rest
  end.

(** Truth value of a string in a condition: empty is false. *)
Definition truthy (s : str) : bool :=
  match s with [] => false | _ :: _ => true end.

(** ** wifi_upload_hook.py *)

Module WifiUploadHook.

Definition BASE_DIR : str := py "service/ServiceWifiResources/res/".
Definition OVERLAY_FILE : str := BASE_DIR ++ py "values/overlayable.xml".
Definition CONFIG_FILE : str := BASE_DIR ++ py "values/config.xml".
Definition STRING_FILE : str := BASE_DIR ++ py "values/strings.xml".
Definition STYLES_FILE : str := BASE_DIR ++ py "values/styles.xml".
Definition DRAWABLE_DIR : str := BASE_DIR ++ py "drawable/".
Definition LAYOUT_DIR : str := BASE_DIR ++ py "layout/".

Definition is_commit_msg_valid `{UnicodeData} (commit_msg : str) : bool :=
  any_line_startswith (py "updated-overlayable") (Py.splitlines commit_msg).

Definition is_in_aosp : IO bool :=
  out <- check_output_git_branch_vv ;;
  ret (is_in_aosp_loop (Py.bytes_splitlines out)).

(** [None] of the source is [None] here. *)
Fixpoint get_changed_resource_file (commit_files : list str) : option str :=
  match commit_files with
  | [] => None
  | commit_file :: rest =>
      if Py.eqb commit_file STRING_FILE then Some STRING_FILE
      else if Py.eqb commit_file CONFIG_FILE then Some commit_file
      else if Py.eqb commit_file STYLES_FILE then Some commit_file
      else if Py.startswith commit_file DRAWABLE_DIR then Some commit_file
      else if Py.startswith commit_file LAYOUT_DIR then Some commit_file
      else get_changed_resource_file rest
  end.

Definition is_commit_msg_has_translation_bug_id `{UnicodeData}
  (commit_msg : str) : bool :=
  any_line_startswith (py "bug: 294871353") (Py.splitlines commit_msg).

(** The lines printed when the bug id is missing (source lines 90 to 95). *)
Definition bug_id_guidance (changed_file : str) : list str :=
  [ py "This commit has changed: " ++ dquote ++ changed_file ++ dquote ++ py ".";
    [];
    py "Please add the following line to your commit message";
    [];
    py "Bug: 294871353";
    [] ].

(** The lines printed when the acknowledgment is missing (lines 101 to 112). *)
Definition overlayable_guidance (changed_file : str) : list str :=
  [ py "This commit has changed: " ++ dquote ++ changed_file ++ dquote ++ py ".";
    [];
    py "If this change added/changed/removed overlayable resources used by the Wifi Module, ";
    py "please update the " ++ dquote ++ OVERLAY_FILE ++ dquote ++ py ".";
    py "and acknowledge you have done so by adding this line to your commit message:";
    [];
    py "Updated-Overlayable: TRUE";
    [];
    py "Otherwise, please explain why the Overlayable does not need to be updated:";
    [];
    py "Updated-Overlayable: Not applicable - changing default value";
    [] ].

(** One [print] per line, in order. *)
Fixpoint print_all (lines : list str) : IO unit :=
  match lines with
  | [] => ret tt
  | line :: rest => print_ line ;;; print_all rest
  end.

(** [commit_msg] and [commit_files] are what [parse_args] hands over; the
    value [main] returns is the exit status of the process ([sys.exit]). *)
Definition main `{UnicodeData} (commit_msg : str) (commit_files : list str)
  : IO Z :=
  aosp <- is_in_aosp ;;
  if aosp then ret 0%Z
  else
    match get_changed_resource_file commit_files with
    | None => ret 0%Z
    | Some changed_file =>
        if negb (truthy changed_file) then ret 0%Z
        else
          let acknowledgment : IO Z :=
            if is_commit_msg_valid commit_msg then ret 0%Z
            else print_all (overlayable_guidance changed_file) ;;; ret 1%Z in
          if Py.eqb changed_file STRING_FILE then
            if negb (is_commit_msg_has_translation_bug_id commit_msg) then
              print_all (bug_id_guidance changed_file) ;;; ret 1%Z
            else acknowledgment
          else acknowledgment
    end.

End WifiUploadHook.

(** ** overlayable_hook.py *)

Module OverlayableHook.

Definition is_commit_msg_valid `{UnicodeData} (commit_msg : str) : bool :=
  any_line_startswith (py "updated-overlayable") (Py.splitlines commit_msg).

Definition is_in_aosp : IO bool :=
  out <- check_output_git_branch_vv ;;
  ret (is_in_aosp_loop (Py.bytes_splitlines out)).

Fixpoint get_changed_resource_file (base_dir : str) (commit_files : list str)
  : option str :=
  let config_file := base_dir ++ py "values/config.xml" in
  let string_file := base_dir ++ py "values/strings.xml" in
  let styles_file := base_dir ++ py "values/styles.xml" in
  let drawable_dir := base_dir ++ py "drawable/" in
  let layout_dir := base_dir ++ py "layout/" in
  match commit_files with
  | [] => None
  | commit_file :: rest =>
      if Py.eqb commit_file config_file then Some commit_file
      else if Py.eqb commit_file string_file then Some commit_file
      else if Py.eqb commit_file styles_file then Some commit_file
      else if Py.startswith commit_file drawable_dir then Some commit_file
      else if Py.startswith commit_file layout_dir then Some commit_file
      else get_changed_resource_file base_dir rest
  end.

(** The lines printed when the acknowledgment is missing (lines 87 to 98). *)
Definition overlayable_guidance (overlay_file changed_file : str) : list str :=
  [ py "This commit has changed: " ++ dquote ++ changed_file ++ dquote ++ py ".";
    [];
    py "If this change added/changed/removed overlayable resources used by the Wifi Module, ";
    py "please update the " ++ dquote ++ overlay_file ++ dquote ++ py ".";
    py "and acknowledge you have done so by adding this line to your commit message:";
    [];
    py "Updated-Overlayable: TRUE";
    [];
    py "Otherwise, please explain why the Overlayable does not need to be updated:";
    [];
    py "Updated-Overlayable: Not applicable - changing default value";
    [] ].

Fixpoint print_all (lines : list str) : IO unit :=
  match lines with
  | [] => ret tt
  | line :: rest => print_ line ;;; print_all rest
  end.

Definition main `{UnicodeData} (commit_msg : str) (commit_files : list str)
  : IO Z :=
  let base_dir := py "service/ServiceWifiResources/res/" in
  let overlay_file := base_dir ++ py "values/overlayable.xml" in
  aosp <- is_in_aosp ;;
  if aosp then ret 0%Z
  else
    match get_changed_resource_file base_dir commit_files with
    | None => ret 0%Z
    | Some changed_file =>
        if negb (truthy changed_file) then ret 0%Z
        else if is_commit_msg_valid commit_msg then ret 0%Z
        else print_all (overlayable_guidance overlay_file changed_file) ;;; ret 1%Z
    end.

End OverlayableHook.

(** ** Lists and dictionaries of the test scripts *)

Module PyData.

(** [x in l] on a list of strings. *)
Definition list_in (x : str) (l : list str) : bool := existsb (Py.eqb x) l.

(** [l.index(x)]: the position of the first element equal to [x]; [None]
    stands for the [ValueError] raised when there is none. *)
Fixpoint list_index (x : str) (l : list str) : option nat :=
  match l with
  | [] => None
  | y :: rest =>
      if Py.eqb y x then Some O
      else match list_index x rest with
           | Some i => Some (S i)
           | None => None
           end
  end.

(** A [dict] with string keys, in insertion order; keys do not repeat. *)
Definition dict (V : Type) : Type := list (str * V).

(** [d[k] = v]: an existing key keeps its place and takes the new value, a
    new key goes last. *)
Fixpoint dict_setitem {V} (d : dict V) (k : str) (v : V) : dict V :=
  match d with
  | [] => [(k, v)]
  | (k', v') :: rest =>
      if Py.eqb k' k then (k', v) :: rest
      else (k', v') :: dict_setitem rest k v
  end.

(** [d.get(k)]. *)
Fixpoint dict_get {V} (d : dict V) (k : str) : option V :=
  match d with
  | [] => None
  | (k', v) :: rest => if Py.eqb k' k then Some v else dict_get rest k
  end.

End PyData.

(** ** tests/hostsidetests/multidevices/test/direct/constants.py *)

Module DirectConstants.

Inductive Band : Type :=
  | GROUP_OWNER_BAND_AUTO
  | GROUP_OWNER_BAND_2GHZ
  | GROUP_OWNER_BAND_5GHZ.

Inductive IpProvisioningMode : Type :=
  | GROUP_CLIENT_IP_PROVISIONING_MODE_IPV4_DHCP
  | GROUP_CLIENT_IP_PROVISIONING_MODE_IPV6_LINK_LOCAL.

(** The [value] of a member. *)
Definition Band_value (b : Band) : Z :=
  match b with
  | GROUP_OWNER_BAND_AUTO => 0
  | GROUP_OWNER_BAND_2GHZ => 1
  | GROUP_OWNER_BAND_5GHZ => 2
  end.

Definition IpProvisioningMode_value (m : IpProvisioningMode) : Z :=
  match m with
  | GROUP_CLIENT_IP_PROVISIONING_MODE_IPV4_DHCP => 0
  | GROUP_CLIENT_IP_PROVISIONING_MODE_IPV6_LINK_LOCAL => 1
  end.

(** The objects an attribute of a [WifiP2pConfig] holds, and the objects
    [to_dict] puts in its result. *)
Inductive object : Type :=
  | PyNone
  | PyBool (b : bool)
  | PyInt (n : Z)
  | PyStr (s : str)
  | PyIpProvisioningMode (m : IpProvisioningMode)
  | PyBand (b : Band).

(** The frozen dataclass, each field typed as annotated; [None] of the
    source is [None] here. *)
Record WifiP2pConfig : Type := mkWifiP2pConfig {
  persistent_mode : option bool;
  device_address : option str;
  group_client_ip_provisioning_mode : option IpProvisioningMode;
  group_operating_band : option Band;
  group_operating_frequency : option Z;
  network_name : option str;
  passphrase : option str
}.

(** [WifiP2pConfig()]: every field at its default. *)
Definition default_config : WifiP2pConfig :=
  mkWifiP2pConfig None None None None None None None.

Definition object_of {A} (inj : A -> object) (o : option A) : object :=
  match o with
  | Some a => inj a
  | None => PyNone
  end.

(** [self.__dict__.items()]: the fields in the order of their declaration. *)
Definition dict_items (self : WifiP2pConfig) : list (str * object) :=
  [ (py "persistent_mode", object_of PyBool (persistent_mode self));
    (py "device_address", object_of PyStr (device_address self));
    (py "group_client_ip_provisioning_mode",
       object_of PyIpProvisioningMode (group_client_ip_provisioning_mode self));
    (py "group_operating_band", object_of PyBand (group_operating_band self));
    (py "group_operating_frequency",
       object_of PyInt (group_operating_frequency self));
    (py "network_name", object_of PyStr (network_name self));
    (py "passphrase", object_of PyStr (passphrase self)) ].

(** [v.value if isinstance(v, enum.Enum) else v]. *)
Definition value_if_Enum (v : object) : object :=
  match v with
  | PyIpProvisioningMode m => PyInt (IpProvisioningMode_value m)
  | PyBand b => PyInt (Band_value b)
  | other => other
  end.

(** [v is not None]. *)
Definition is_not_None (v : object) : bool :=
  match v with
  | PyNone => false
  | _ => true
  end.

(** The comprehension of [to_dict], item by item. *)
Fixpoint to_dict_from (items : list (str * object)) (d : PyData.dict object)
  : PyData.dict object :=
  match items with
  | [] => d
  | (k, v) :: rest =>
      if is_not_None v then
        to_dict_from rest
          (PyData.dict_setitem d k (value_if_Enum v))
      else to_dict_from rest d
  end.

Definition to_dict (self : WifiP2pConfig) : PyData.dict object :=
  to_dict_from (dict_items self) [].

End DirectConstants.

(** ** The entry point of the two wifi_aware_test.py scripts *)

Module WifiAwareTest.

(** The rewriting of [sys.argv] before [test_runner.main()] (the same lines
    in both scripts): the new [sys.argv], or [None] for a [ValueError]. *)
Definition take_test_args (argv : list str) : option (list str) :=
  if PyData.list_in (py "--") argv then
    match PyData.list_index (py "--") argv with
    | Some index => Some (firstn 1 argv ++ skipn (index + 1) argv)
    | None => None
    end
  else Some argv.

End WifiAwareTest.

(** * Vocabulary of the properties *)

(** The branch signal both hooks compute, as a function of the world. *)
Definition isUpstreamBranch (w : World) : bool :=
  is_in_aosp_loop (Py.bytes_splitlines (git_branch_vv w)).

(** The world after [lines] more have been printed. *)
Definition emit (lines : list str) (w : World) : World :=
  mkWorld (git_branch_vv w) (stdout w ++ lines).

(** A line feed, to write messages of several lines. *)
Definition LF : str := [10].

(** A world whose current branch tracks an internal remote, and one whose
    current branch tracks AOSP. *)
Definition w_internal : World :=
  mkWorld (py "  aosp-copy 1a2b3c4 [aosp/main] wip" ++ LF ++
           py "* work      5d6e7f8 [goog/main] Fix default" ++ LF) [].
Definition w_aosp : World :=
  mkWorld (py "* work      5d6e7f8 [aosp/main: ahead 1] Fix default" ++ LF) [].

(** ** The hooks as functions of their three inputs *)

(** What [wifi_upload_hook.main] decides: the exit status and the lines it
    prints. *)
Definition wifi_decision `{UnicodeData} (upstream : bool) (commit_msg : str)
  (commit_files : list str) : Z * list str :=
  if upstream then (0%Z, [])
  else
    match WifiUploadHook.get_changed_resource_file commit_files with
    | None => (0%Z, [])
    | Some f =>
        if negb (truthy f) then (0%Z, [])
        else if Py.eqb f WifiUploadHook.STRING_FILE
                && negb (WifiUploadHook.is_commit_msg_has_translation_bug_id commit_msg)
        then (1%Z, WifiUploadHook.bug_id_guidance f)
        else if WifiUploadHook.is_commit_msg_valid commit_msg then (0%Z, [])
        else (1%Z, WifiUploadHook.overlayable_guidance f)
    end.

(** What [overlayable_hook.main] decides. *)
Definition overlayable_decision `{UnicodeData} (upstream : bool) (commit_msg : str)
  (commit_files : list str) : Z * list str :=
  if upstream then (0%Z, [])
  else
    match OverlayableHook.get_changed_resource_file
            WifiUploadHook.BASE_DIR commit_files with
    | None => (0%Z, [])
    | Some f =>
        if negb (truthy f) then (0%Z, [])
        else if OverlayableHook.is_commit_msg_valid commit_msg then (0%Z, [])
        else (1%Z, OverlayableHook.overlayable_guidance
                     WifiUploadHook.OVERLAY_FILE f)
    end.

(** ** Vocabulary of the message scan *)

Definition all_space (s : str) : Prop := Forall (fun c => Py.is_space c = true) s.

(** [m] is a spelling of [marker]: ASCII text that differs from it in letter
    case only; a marker neither begins nor ends with white space. *)
Definition spelling_of (marker m : str) : Prop :=
  forallb (fun c => c <? 128) m = true /\
  map Py.ascii_lower m = marker /\
  Py.is_space (hd 32 m) = false /\
  Py.is_space (last m 32) = false.

(** ** Vocabulary of the path classifier *)

(** A path on a tracked surface: one of the three files, or anything under
    one of the two directories. *)
Definition tracked (f : str) : Prop :=
  f = WifiUploadHook.CONFIG_FILE \/ f = WifiUploadHook.STRING_FILE \/
  f = WifiUploadHook.STYLES_FILE \/
  (exists t, f = WifiUploadHook.DRAWABLE_DIR ++ t) \/
  (exists t, f = WifiUploadHook.LAYOUT_DIR ++ t).

Definition trackedb (f : str) : bool :=
  Py.eqb f WifiUploadHook.CONFIG_FILE || Py.eqb f WifiUploadHook.STRING_FILE ||
  Py.eqb f WifiUploadHook.STYLES_FILE ||
  Py.startswith f WifiUploadHook.DRAWABLE_DIR ||
  Py.startswith f WifiUploadHook.LAYOUT_DIR.

(** The path and the messages of the scenarios. *)
Definition icon_png : str := WifiUploadHook.DRAWABLE_DIR ++ py "icon.png".
Definition msg_fix_default : str := py "fix default".
Definition msg_fix_default_ack : str :=
  py "fix default" ++ LF ++ py "Updated-Overlayable: TRUE".

(** Another world off AOSP, with output already on the terminal. *)
Definition w_internal_busy : World :=
  mkWorld (py "* topic 0a1b2c3 [goog/dev] Translate" ++ LF)
          [py "running hooks"].

Definition msg_ack_only : str := py "Updated-Overlayable: TRUE".
Definition config_then_strings : list str :=
  [WifiUploadHook.CONFIG_FILE; WifiUploadHook.STRING_FILE].
Definition strings_then_config : list str :=
  [WifiUploadHook.STRING_FILE; WifiUploadHook.CONFIG_FILE].

(** ** Vocabulary of the further properties *)

(** The asterisk that marks the current branch, and the text [is_in_aosp]
    looks for on that line. *)
Definition star : bytes := [42].
Definition aosp_tag : bytes := py "[aosp/".

(** The first line of either guidance block. *)
Definition this_commit_has_changed (f : str) : str :=
  py "This commit has changed: " ++ dquote ++ f ++ dquote ++ py ".".

(** What the line scan resumes with after the boundary [sep]: a line feed
    right after a carriage return belongs to the boundary. *)
Definition after_break (sep : N) (b : list N) : list N :=
  match b with
  | d :: b' => if (sep =? 13) && (d =? 10) then b' else b
  | [] => []
  end.

(** The names of the fields of [WifiP2pConfig], in declaration order. *)
Definition field_names : list str :=
  map fst (DirectConstants.dict_items DirectConstants.default_config).

(** A reader of the dictionary [to_dict] builds: each field from its key. *)
Definition config_of_dict (d : PyData.dict DirectConstants.object)
  : DirectConstants.WifiP2pConfig :=
  let get := PyData.dict_get d in
  DirectConstants.mkWifiP2pConfig
    (match get (py "persistent_mode") with
     | Some (DirectConstants.PyBool b) => Some b | _ => None end)
    (match get (py "device_address") with
     | Some (DirectConstants.PyStr a) => Some a | _ => None end)
    (match get (py "group_client_ip_provisioning_mode") with
     | Some (DirectConstants.PyInt 0) =>
         Some DirectConstants.GROUP_CLIENT_IP_PROVISIONING_MODE_IPV4_DHCP
     | Some (DirectConstants.PyInt 1) =>
         Some DirectConstants.GROUP_CLIENT_IP_PROVISIONING_MODE_IPV6_LINK_LOCAL
     | _ => None end)
    (match get (py "group_operating_band") with
     | Some (DirectConstants.PyInt 0) => Some DirectConstants.GROUP_OWNER_BAND_AUTO
     | Some (DirectConstants.PyInt 1) => Some DirectConstants.GROUP_OWNER_BAND_2GHZ
     | Some (DirectConstants.PyInt 2) => Some DirectConstants.GROUP_OWNER_BAND_5GHZ
     | _ => None end)
    (match get (py "group_operating_frequency") with
     | Some (DirectConstants.PyInt n) => Some n | _ => None end)
    (match get (py "network_name") with
     | Some (DirectConstants.PyStr a) => Some a | _ => None end)
    (match get (py "passphrase") with
     | Some (DirectConstants.PyStr a) => Some a | _ => None end).

(** A world off AOSP whose current branch has "[aosp/" in the subject of
    its last commit only. *)
Definition w_subject_tag : World :=
  mkWorld (py "  main 1a2b3c4 [goog/main] wip" ++ LF ++
           py "* work 5d6e7f8 [goog/main] Revert [aosp/main] merge" ++ LF) [].

Definition msg_both_markers : str :=
  py "Bug: 294871353" ++ LF ++ py "Updated-Overlayable: TRUE".
Definition msg_blank : str := py "  " ++ LF ++ [9; 160].

Definition foo_java : str := py "service/java/Foo.java".
Definition strings_fr : str :=
  WifiUploadHook.BASE_DIR ++ py "values" ++ 45 :: py "fr/strings.xml".
Definition icon_hdpi : str :=
  WifiUploadHook.BASE_DIR ++ py "drawable" ++ 45 :: py "hdpi/icon.png".

Definition argv_with_test_args : list str :=
  py "wifi_aware_test.py" ::
  [py "-c"; py "config.yml"] ++ py "--" :: [py "--verbose"; py "--"; py "x"].

(** * Lemmas *)

(** ** Strings *)

Lemma eqb_eq (a b : list N) : Py.eqb a b = true <-> a = b.
Proof.
  revert b; induction a as [|x a IH]; intros [|y b]; simpl;
    try (split; [discriminate | discriminate]); try tauto.
  rewrite andb_true_iff, N.eqb_eq, IH.
  split; [intros [-> ->]; reflexivity | intros E; inversion E; auto].
Qed.

Lemma eqb_refl (a : list N) : Py.eqb a a = true.
Proof. apply eqb_eq; reflexivity. Qed.

Lemma eqb_neq (a b : list N) : Py.eqb a b = false <-> a <> b.
Proof.
  rewrite <- eqb_eq. destruct (Py.eqb a b); split; congruence.
Qed.

Lemma startswith_iff (s p : list N) :
  Py.startswith s p = true <-> exists t, s = p ++ t.
Proof.
  revert s; induction p as [|x p IH]; intros s; simpl.
  - split; [intros _; exists s; reflexivity | reflexivity].
  - destruct s as [|c s].
    + split; [discriminate | intros [t E]; discriminate].
    + rewrite andb_true_iff, N.eqb_eq, IH. split.
      * intros [-> [t ->]]. exists t; reflexivity.
      * intros [t E]. inversion E; subst. split; [reflexivity | exists t; reflexivity].
Qed.

Lemma startswith_app (p t : list N) : Py.startswith (p ++ t) p = true.
Proof. apply startswith_iff. exists t; reflexivity. Qed.

(** ** Printing *)

Lemma emit_nil (w : World) : emit [] w = w.
Proof. destruct w as [g o]; unfold emit; simpl. now rewrite app_nil_r. Qed.

Lemma wifi_print_all_run (lines : list str) (w : World) :
  WifiUploadHook.print_all lines w = (tt, emit lines w).
Proof.
  revert w; induction lines as [|l lines IH]; intros w; simpl.
  - unfold ret. now rewrite emit_nil.
  - unfold bind, print_. rewrite IH. unfold emit; simpl.
    now rewrite <- app_assoc.
Qed.

Lemma overlayable_print_all_run (lines : list str) (w : World) :
  OverlayableHook.print_all lines w = (tt, emit lines w).
Proof.
  revert w; induction lines as [|l lines IH]; intros w; simpl.
  - unfold ret. now rewrite emit_nil.
  - unfold bind, print_. rewrite IH. unfold emit; simpl.
    now rewrite <- app_assoc.
Qed.

Lemma wifi_is_in_aosp_run (w : World) :
  WifiUploadHook.is_in_aosp w = (isUpstreamBranch w, w).
Proof. reflexivity. Qed.

Lemma overlayable_is_in_aosp_run (w : World) :
  OverlayableHook.is_in_aosp w = (isUpstreamBranch w, w).
Proof. reflexivity. Qed.

(** ** Running a hook *)

Section Engine.
Context {U : UnicodeData}.

Lemma wifi_main_run (commit_msg : str) (commit_files : list str) (w : World) :
  WifiUploadHook.main commit_msg commit_files w =
  let d := wifi_decision (isUpstreamBranch w) commit_msg commit_files in
  (fst d, emit (snd d) w).
Proof.
  unfold WifiUploadHook.main, wifi_decision, bind.
  rewrite wifi_is_in_aosp_run.
  destruct (isUpstreamBranch w); [cbn; now rewrite emit_nil|].
  destruct (WifiUploadHook.get_changed_resource_file commit_files) as [f|];
    [|cbn; now rewrite emit_nil].
  destruct (negb (truthy f)); [cbn; now rewrite emit_nil|].
  destruct (Py.eqb f WifiUploadHook.STRING_FILE);
    destruct (WifiUploadHook.is_commit_msg_has_translation_bug_id commit_msg);
    destruct (WifiUploadHook.is_commit_msg_valid commit_msg);
    cbn [andb negb fst snd]; unfold ret;
    rewrite ?wifi_print_all_run, ?emit_nil; reflexivity.
Qed.

Lemma overlayable_main_run (commit_msg : str) (commit_files : list str)
  (w : World) :
  OverlayableHook.main commit_msg commit_files w =
  let d := overlayable_decision (isUpstreamBranch w) commit_msg commit_files in
  (fst d, emit (snd d) w).
Proof.
  unfold OverlayableHook.main, overlayable_decision, bind.
  rewrite overlayable_is_in_aosp_run.
  destruct (isUpstreamBranch w); [cbn; now rewrite emit_nil|].
  change (py "service/ServiceWifiResources/res/") with WifiUploadHook.BASE_DIR.
  destruct (OverlayableHook.get_changed_resource_file _ commit_files) as [f|];
    [|cbn; now rewrite emit_nil].
  destruct (negb (truthy f)); [cbn; now rewrite emit_nil|].
  destruct (OverlayableHook.is_commit_msg_valid commit_msg);
    cbn [fst snd]; unfold ret;
    rewrite ?overlayable_print_all_run, ?emit_nil; reflexivity.
Qed.

End Engine.

(** ** Stripping, lowercasing and the line scan *)

Lemma lstrip_all_space (pre s : str) :
  all_space pre -> Py.lstrip (pre ++ s) = Py.lstrip s.
Proof.
  induction 1 as [|c pre Hc _ IH]; simpl; [reflexivity|].
  now rewrite Hc.
Qed.

Lemma lstrip_keeps_suffix (r t : str) :
  Py.is_space (hd 32 t) = false -> exists y, Py.lstrip (r ++ t) = y ++ t.
Proof.
  intros Ht. induction r as [|c r IH]; simpl.
  - exists []. destruct t as [|z t]; [reflexivity|].
    simpl in *. now rewrite Ht.
  - destruct (Py.is_space c).
    + exact IH.
    + exists (c :: r). reflexivity.
Qed.

Lemma hd_rev_last (m : str) (d : N) : hd d (rev m) = last m d.
Proof.
  induction m as [|a m IH]; [reflexivity|].
  simpl rev. destruct m as [|b m]; [reflexivity|].
  change (last (a :: b :: m) d) with (last (b :: m) d).
  rewrite <- IH. simpl. destruct (rev m ++ [b]) eqn:E; [|reflexivity].
  apply app_eq_nil in E. destruct E; discriminate.
Qed.

Lemma rstrip_keeps_prefix (m rest : str) :
  Py.is_space (last m 32) = false -> exists x, Py.rstrip (m ++ rest) = m ++ x.
Proof.
  intros Hm. unfold Py.rstrip. rewrite rev_app_distr.
  destruct (lstrip_keeps_suffix (rev rest) (rev m)) as [y Hy].
  - now rewrite hd_rev_last.
  - exists (rev y). now rewrite Hy, rev_app_distr, rev_involutive.
Qed.

Lemma strip_line_with_marker (pre m rest : str) :
  all_space pre ->
  Py.is_space (hd 32 m) = false -> Py.is_space (last m 32) = false ->
  exists x, Py.strip (pre ++ m ++ rest) = m ++ x.
Proof.
  intros Hpre Hh Hl. unfold Py.strip.
  rewrite lstrip_all_space by assumption.
  destruct m as [|a m]; [discriminate Hh|].
  replace (Py.lstrip ((a :: m) ++ rest)) with ((a :: m) ++ rest).
  - now apply rstrip_keeps_prefix.
  - simpl in *. now rewrite Hh.
Qed.

Section Scanner.
Context {U : UnicodeData}.

Lemma lower_from_ascii_app (m x before : str) :
  forallb (fun c => c <? 128) m = true ->
  Py.lower_from before (m ++ x) =
  map Py.ascii_lower m ++ Py.lower_from (rev m ++ before) x.
Proof.
  revert before; induction m as [|c m IH]; intros before Hm; [reflexivity|].
  simpl in Hm. apply andb_true_iff in Hm as [Hc Hm].
  simpl. rewrite Hc, IH by assumption. simpl.
  now rewrite <- app_assoc.
Qed.

Lemma lowered_line_startswith (marker pre m rest : str) :
  spelling_of marker m -> all_space pre ->
  Py.startswith (Py.lower (Py.strip (pre ++ m ++ rest))) marker = true.
Proof.
  intros (Hascii & Hlow & Hh & Hl) Hpre.
  destruct (strip_line_with_marker pre m rest Hpre Hh Hl) as [x ->].
  unfold Py.lower. rewrite lower_from_ascii_app by assumption.
  rewrite Hlow. apply startswith_app.
Qed.

Lemma any_line_startswith_iff (marker : str) (lines : list str) :
  any_line_startswith marker lines = true <->
  exists line, In line lines /\
               Py.startswith (Py.lower (Py.strip line)) marker = true.
Proof.
  induction lines as [|l lines IH]; simpl.
  - split; [discriminate | intros (l & [] & _)].
  - destruct (Py.startswith (Py.lower (Py.strip l)) marker) eqn:E.
    + split; [intros _; exists l; auto | reflexivity].
    + rewrite IH. split.
      * intros (l' & Hin & Hs). exists l'; auto.
      * intros (l' & [<- | Hin] & Hs); [congruence | exists l'; auto].
Qed.

End Scanner.

(** The first line of a text that begins with [m]: [m] and what follows it up
    to the first line boundary. *)
Lemma splitlines_scan_skip (brk : N -> bool) (m s line : list N) :
  forallb (fun c => negb (brk c)) m = true ->
  Py.splitlines_scan brk line (m ++ s) = Py.splitlines_scan brk (rev m ++ line) s.
Proof.
  revert line; induction m as [|c m IH]; intros line Hm; [reflexivity|].
  simpl in Hm. apply andb_true_iff in Hm as [Hc Hm].
  apply negb_true_iff in Hc. simpl. rewrite Hc, IH by assumption.
  now rewrite <- app_assoc.
Qed.

Lemma splitlines_scan_pending (brk : N -> bool) (s line : list N) :
  line <> [] ->
  exists x tl, Py.splitlines_scan brk line s = (rev line ++ x) :: tl.
Proof.
  revert line; induction s as [|c s IH]; intros line Hne.
  - destruct line as [|a line]; [congruence|].
    exists [], []. simpl. now rewrite app_nil_r.
  - simpl. destruct (brk c).
    + eexists [], _. rewrite app_nil_r. reflexivity.
    + destruct (IH (c :: line)) as (x & tl & E); [discriminate|].
      exists (c :: x), tl. rewrite E. simpl. now rewrite <- app_assoc.
Qed.

Lemma splitlines_first_line (m rest : str) :
  m <> [] -> forallb (fun c => negb (Py.is_linebreak c)) m = true ->
  exists x tl, Py.splitlines (m ++ rest) = (m ++ x) :: tl.
Proof.
  intros Hne Hm. unfold Py.splitlines.
  rewrite splitlines_scan_skip by assumption. rewrite app_nil_r.
  destruct (splitlines_scan_pending Py.is_linebreak rest (rev m)) as (x & tl & E).
  - intros E. apply (f_equal (@rev N)) in E. rewrite rev_involutive in E.
    now apply Hne.
  - exists x, tl. rewrite rev_involutive in E. exact E.
Qed.

(** ** The path classifier *)

Lemma trackedb_iff (f : str) : trackedb f = true <-> tracked f.
Proof.
  unfold trackedb, tracked.
  rewrite !orb_true_iff, !eqb_eq, !startswith_iff. tauto.
Qed.

Lemma trackedb_false_iff (f : str) : trackedb f = false <-> ~ tracked f.
Proof.
  rewrite <- trackedb_iff. destruct (trackedb f); split; congruence.
Qed.

Lemma wifi_classifier_find (commit_files : list str) :
  WifiUploadHook.get_changed_resource_file commit_files =
  find trackedb commit_files.
Proof.
  induction commit_files as [|f files IH]; [reflexivity|].
  cbn [WifiUploadHook.get_changed_resource_file find]. unfold trackedb.
  destruct (Py.eqb f WifiUploadHook.STRING_FILE) eqn:Es.
  - apply eqb_eq in Es. subst f. reflexivity.
  - destruct (Py.eqb f WifiUploadHook.CONFIG_FILE); [reflexivity|].
    destruct (Py.eqb f WifiUploadHook.STYLES_FILE); [reflexivity|].
    destruct (Py.startswith f WifiUploadHook.DRAWABLE_DIR); [reflexivity|].
    destruct (Py.startswith f WifiUploadHook.LAYOUT_DIR); [reflexivity|].
    exact IH.
Qed.

Lemma overlayable_classifier_find (commit_files : list str) :
  OverlayableHook.get_changed_resource_file WifiUploadHook.BASE_DIR commit_files =
  find trackedb commit_files.
Proof.
  induction commit_files as [|f files IH]; [reflexivity|].
  cbn [OverlayableHook.get_changed_resource_file find]. unfold trackedb.
  fold WifiUploadHook.CONFIG_FILE WifiUploadHook.STRING_FILE
       WifiUploadHook.STYLES_FILE WifiUploadHook.DRAWABLE_DIR
       WifiUploadHook.LAYOUT_DIR.
  destruct (Py.eqb f WifiUploadHook.CONFIG_FILE); [reflexivity|].
  destruct (Py.eqb f WifiUploadHook.STRING_FILE); [reflexivity|].
  destruct (Py.eqb f WifiUploadHook.STYLES_FILE); [reflexivity|].
  destruct (Py.startswith f WifiUploadHook.DRAWABLE_DIR); [reflexivity|].
  destruct (Py.startswith f WifiUploadHook.LAYOUT_DIR); [reflexivity|].
  exact IH.
Qed.

(** [find] returns the first element that satisfies the test. *)
Lemma find_first {A} (p : A -> bool) (l : list A) (x : A) :
  find p l = Some x <->
  exists pre post, l = pre ++ x :: post /\ p x = true /\
                   forall y, In y pre -> p y = false.
Proof.
  induction l as [|a l IH]; simpl.
  - split; [discriminate | intros ([|? ?] & post & E & _); discriminate].
  - destruct (p a) eqn:Ea.
    + split.
      * intros [= <-]. exists [], l. repeat split; auto. intros y [].
      * intros ([|b pre] & post & E & Hx & Hpre); inversion E; subst.
        -- reflexivity.
        -- rewrite (Hpre b (or_introl eq_refl)) in Ea. discriminate.
    + rewrite IH. split.
      * intros (pre & post & -> & Hx & Hpre). exists (a :: pre), post.
        repeat split; auto. intros y [<- | Hy]; auto.
      * intros ([|b pre] & post & E & Hx & Hpre); inversion E; subst.
        -- congruence.
        -- exists pre, post. repeat split; auto. intros y Hy. apply Hpre. now right.
Qed.

Lemma find_none_iff {A} (p : A -> bool) (l : list A) :
  find p l = None <-> forall y, In y l -> p y = false.
Proof.
  induction l as [|a l IH]; simpl.
  - split; [intros _ y [] | reflexivity].
  - destruct (p a) eqn:Ea.
    + split; [discriminate | intros H; rewrite (H a (or_introl eq_refl)) in Ea; discriminate].
    + rewrite IH. split.
      * intros H y [<- | Hy]; auto.
      * intros H y Hy. apply H. now right.
Qed.

(** ** One-line messages and lines that start otherwise *)

Lemma lstrip_id (s : str) :
  Py.is_space (hd 32 s) = false -> Py.lstrip s = s.
Proof.
  destruct s as [|a s]; [reflexivity|]. simpl. now intros ->.
Qed.

Lemma strip_trimmed (m : str) :
  Py.is_space (hd 32 m) = false -> Py.is_space (last m 32) = false ->
  Py.strip m = m.
Proof.
  intros Hh Hl. unfold Py.strip, Py.rstrip.
  rewrite (lstrip_id m Hh), lstrip_id.
  - apply rev_involutive.
  - now rewrite hd_rev_last.
Qed.

Lemma splitlines_one_line (m : str) :
  m <> [] -> forallb (fun c => negb (Py.is_linebreak c)) m = true ->
  Py.splitlines m = [m].
Proof.
  intros Hne Hm. unfold Py.splitlines.
  rewrite <- (app_nil_r m) at 1.
  rewrite splitlines_scan_skip by assumption. rewrite app_nil_r.
  cbn [Py.splitlines_scan]. unfold str, codepoint in *.
  destruct (rev m) as [|x r] eqn:E.
  - apply (f_equal (@rev N)) in E. rewrite rev_involutive in E.
    now destruct Hne.
  - rewrite <- E. now rewrite rev_involutive.
Qed.

Section LineStart.
Context {U : UnicodeData}.

Lemma lower_ascii (m : str) :
  forallb (fun c => c <? 128) m = true -> Py.lower m = map Py.ascii_lower m.
Proof.
  intros Hm. unfold Py.lower. rewrite <- (app_nil_r m) at 1.
  rewrite lower_from_ascii_app by assumption. apply app_nil_r.
Qed.

(** A message of one trimmed ASCII line: the scan is the prefix test on its
    lowercase form. *)
Lemma any_line_startswith_one_line (marker m : str) :
  forallb (fun c => c <? 128) m = true ->
  forallb (fun c => negb (Py.is_linebreak c)) m = true ->
  Py.is_space (hd 32 m) = false -> Py.is_space (last m 32) = false ->
  any_line_startswith marker (Py.splitlines m) =
  Py.startswith (map Py.ascii_lower m) marker.
Proof.
  intros Hascii Hbrk Hh Hl.
  assert (Hne : m <> []) by (intros ->; discriminate Hh).
  rewrite (splitlines_one_line m Hne Hbrk). simpl.
  rewrite (strip_trimmed m Hh Hl), (lower_ascii m Hascii).
  now destruct (Py.startswith (map Py.ascii_lower m) marker).
Qed.

(** Lines whose first character after the white space is not the marker's
    first letter, in either case, do not count. *)
Lemma any_line_startswith_other_start (p : N) (marker : str) (lines : list str) :
  (forall line, In line lines ->
     exists pre c rest, line = pre ++ c :: rest /\ all_space pre /\
       c < 128 /\ Py.is_space c = false /\ Py.ascii_lower c <> p) ->
  any_line_startswith (p :: marker) lines = false.
Proof.
  intros Hlines.
  destruct (any_line_startswith (p :: marker) lines) eqn:E; [|reflexivity].
  apply any_line_startswith_iff in E as (line & Hin & Hs).
  destruct (Hlines line Hin) as (pre & c & rest & -> & Hpre & Hc & Hsp & Hne).
  destruct (strip_line_with_marker pre [c] rest Hpre Hsp Hsp) as [x Hx].
  change (pre ++ [c] ++ rest) with (pre ++ c :: rest) in Hx.
  rewrite Hx in Hs. unfold Py.lower in Hs. simpl in Hs.
  apply N.ltb_lt in Hc. rewrite Hc in Hs. simpl in Hs.
  apply andb_true_iff in Hs as [Hs _]. apply N.eqb_eq in Hs. contradiction.
Qed.

End LineStart.

(** * The properties of the hooks *)

(** Runs a hook on concrete arguments in a world whose branch signal is
    known from [Hup]. *)
Ltac run_hook Hup :=
  rewrite ?wifi_main_run, ?overlayable_main_run; rewrite Hup;
  repeat match goal with
  | |- context [wifi_decision ?a ?b ?c] =>
      let v := eval vm_compute in (wifi_decision a b c) in
      change (wifi_decision a b c) with v
  | |- context [overlayable_decision ?a ?b ?c] =>
      let v := eval vm_compute in (overlayable_decision a b c) in
      change (overlayable_decision a b c) with v
  end;
  cbn [fst snd]; rewrite ?emit_nil; reflexivity.

Section HookProperties.
Context {U : UnicodeData}.

(** C1.  Two-rule hook, not upstream, the classifier answers the strings
    file: the exit status is 0 exactly when the message has both the bug id
    line and the acknowledgment line.  The bug id is looked for first: without
    it the hook prints the bug id guidance and exits with 1, whatever the
    acknowledgment; with it and without the acknowledgment the hook prints the
    acknowledgment guidance and exits with 1. *)
Theorem wifi_strings_needs_both_markers
  (commit_msg : str) (commit_files : list str) (w : World) :
  isUpstreamBranch w = false ->
  WifiUploadHook.get_changed_resource_file commit_files
    = Some WifiUploadHook.STRING_FILE ->
  let r := WifiUploadHook.main commit_msg commit_files w in
  let bug := WifiUploadHook.is_commit_msg_has_translation_bug_id commit_msg in
  let ack := WifiUploadHook.is_commit_msg_valid commit_msg in
  (fst r = 0%Z <-> bug = true /\ ack = true) /\
  (fst r = 0%Z \/ fst r = 1%Z) /\
  (bug = false ->
   r = (1%Z, emit (WifiUploadHook.bug_id_guidance WifiUploadHook.STRING_FILE) w)) /\
  (bug = true -> ack = false ->
   r = (1%Z, emit (WifiUploadHook.overlayable_guidance WifiUploadHook.STRING_FILE) w)) /\
  (bug = true -> ack = true -> r = (0%Z, w)).
Proof.
  intros Hup Hf r bug ack. subst r bug ack.
  rewrite wifi_main_run. unfold wifi_decision. rewrite Hup, Hf.
  change (truthy WifiUploadHook.STRING_FILE) with true.
  rewrite eqb_refl. cbn [negb andb].
  destruct (WifiUploadHook.is_commit_msg_has_translation_bug_id commit_msg);
    destruct (WifiUploadHook.is_commit_msg_valid commit_msg);
    cbn [negb fst snd]; rewrite ?emit_nil;
    repeat split; try congruence; try discriminate; auto;
    try (intros [? ?]; discriminate).
Qed.

(** C3.  When the current branch tracks AOSP both hooks exit with 0 and print
    nothing, whatever the message and the changed files. *)
Theorem upstream_bypass (commit_msg : str) (commit_files : list str) (w : World) :
  isUpstreamBranch w = true ->
  WifiUploadHook.main commit_msg commit_files w = (0%Z, w) /\
  OverlayableHook.main commit_msg commit_files w = (0%Z, w).
Proof.
  intros Hup. rewrite wifi_main_run, overlayable_main_run.
  unfold wifi_decision, overlayable_decision. rewrite Hup.
  cbn. now rewrite emit_nil.
Qed.

(** C4.  Not upstream, and no changed path is one of the three tracked files
    or lies under one of the two tracked directories: both hooks exit with 0
    and print nothing, whatever the message. *)
Theorem untracked_changes_allowed
  (commit_msg : str) (commit_files : list str) (w : World) :
  isUpstreamBranch w = false ->
  (forall f, In f commit_files ->
     f <> WifiUploadHook.CONFIG_FILE /\ f <> WifiUploadHook.STRING_FILE /\
     f <> WifiUploadHook.STYLES_FILE /\
     Py.startswith f WifiUploadHook.DRAWABLE_DIR = false /\
     Py.startswith f WifiUploadHook.LAYOUT_DIR = false) ->
  WifiUploadHook.main commit_msg commit_files w = (0%Z, w) /\
  OverlayableHook.main commit_msg commit_files w = (0%Z, w).
Proof.
  intros Hup Hfiles.
  assert (Hnone : find trackedb commit_files = None).
  { apply find_none_iff. intros f Hf.
    destruct (Hfiles f Hf) as (Hc & Hs & Hy & Hd & Hl).
    unfold trackedb. rewrite Hd, Hl.
    apply eqb_neq in Hc, Hs, Hy. now rewrite Hc, Hs, Hy. }
  rewrite wifi_main_run, overlayable_main_run.
  unfold wifi_decision, overlayable_decision.
  rewrite Hup, wifi_classifier_find, overlayable_classifier_find, Hnone.
  cbn. now rewrite emit_nil.
Qed.

(** C5.  Not upstream, the only changed file is [values/config.xml].  With
    the message "fix default" each hook exits with 1 and prints the
    acknowledgment guidance for that file, once, and nothing else.  With the
    line "Updated-Overlayable: TRUE" added, and more generally with any
    message that has this line, each hook exits with 0 and prints nothing. *)
Theorem config_change_scenarios (w : World) :
  isUpstreamBranch w = false ->
  let files := [WifiUploadHook.CONFIG_FILE] in
  WifiUploadHook.main msg_fix_default files w
    = (1%Z, emit (WifiUploadHook.overlayable_guidance WifiUploadHook.CONFIG_FILE) w) /\
  OverlayableHook.main msg_fix_default files w
    = (1%Z, emit (OverlayableHook.overlayable_guidance
                    WifiUploadHook.OVERLAY_FILE WifiUploadHook.CONFIG_FILE) w) /\
  WifiUploadHook.main msg_fix_default_ack files w = (0%Z, w) /\
  OverlayableHook.main msg_fix_default_ack files w = (0%Z, w) /\
  (forall commit_msg,
     In (py "Updated-Overlayable: TRUE") (Py.splitlines commit_msg) ->
     WifiUploadHook.main commit_msg files w = (0%Z, w) /\
     OverlayableHook.main commit_msg files w = (0%Z, w)).
Proof.
  intros Hup files. subst files.
  assert (Hack : forall commit_msg,
            In (py "Updated-Overlayable: TRUE") (Py.splitlines commit_msg) ->
            any_line_startswith (py "updated-overlayable")
              (Py.splitlines commit_msg) = true).
  { intros commit_msg Hin. apply any_line_startswith_iff.
    exists (py "Updated-Overlayable: TRUE"). split; [assumption | reflexivity]. }
  split; [|split; [|split; [|split]]]; try (run_hook Hup).
  intros commit_msg Hin. apply Hack in Hin.
  rewrite wifi_main_run, overlayable_main_run.
  unfold wifi_decision, overlayable_decision. rewrite Hup.
  change (WifiUploadHook.get_changed_resource_file [WifiUploadHook.CONFIG_FILE])
    with (Some WifiUploadHook.CONFIG_FILE).
  change (OverlayableHook.get_changed_resource_file WifiUploadHook.BASE_DIR
            [WifiUploadHook.CONFIG_FILE])
    with (Some WifiUploadHook.CONFIG_FILE).
  change (truthy WifiUploadHook.CONFIG_FILE) with true.
  change (Py.eqb WifiUploadHook.CONFIG_FILE WifiUploadHook.STRING_FILE) with false.
  unfold WifiUploadHook.is_commit_msg_valid, OverlayableHook.is_commit_msg_valid.
  rewrite Hin. cbn. now rewrite emit_nil.
Qed.

(** C7.  Whatever the inputs, each hook either exits with 0 having printed
    nothing (allowed), or exits with 1 having printed a guidance block
    (blocked); there is no third exit status. *)
Theorem exit_status_zero_or_one
  (commit_msg : str) (commit_files : list str) (w : World) :
  (WifiUploadHook.main commit_msg commit_files w = (0%Z, w) \/
   exists lines, lines <> [] /\
     WifiUploadHook.main commit_msg commit_files w = (1%Z, emit lines w)) /\
  (OverlayableHook.main commit_msg commit_files w = (0%Z, w) \/
   exists lines, lines <> [] /\
     OverlayableHook.main commit_msg commit_files w = (1%Z, emit lines w)).
Proof.
  rewrite wifi_main_run, overlayable_main_run.
  unfold wifi_decision, overlayable_decision.
  destruct (isUpstreamBranch w).
  { cbn. rewrite emit_nil. auto. }
  split.
  - destruct (WifiUploadHook.get_changed_resource_file commit_files) as [f|];
      [|cbn; rewrite emit_nil; auto].
    destruct (negb (truthy f)); [cbn; rewrite emit_nil; auto|].
    destruct (Py.eqb f WifiUploadHook.STRING_FILE &&
              negb (WifiUploadHook.is_commit_msg_has_translation_bug_id commit_msg)).
    { right. eexists. split; [|reflexivity]. discriminate. }
    destruct (WifiUploadHook.is_commit_msg_valid commit_msg);
      [cbn; rewrite emit_nil; auto|].
    right. eexists. split; [|reflexivity]. discriminate.
  - destruct (OverlayableHook.get_changed_resource_file _ commit_files) as [f|];
      [|cbn; rewrite emit_nil; auto].
    destruct (negb (truthy f)); [cbn; rewrite emit_nil; auto|].
    destruct (OverlayableHook.is_commit_msg_valid commit_msg);
      [cbn; rewrite emit_nil; auto|].
    right. eexists. split; [|reflexivity]. discriminate.
Qed.

(** C2.  The marker scan answers [True] exactly when some line of the
    message, stripped and lowercased, starts with the marker; the three checks
    of the source are this scan with their markers.  Hence white space before
    the marker, the letter case of its spelling and any text after it on the
    line do not matter, while a line whose first character that is not white
    space differs from the marker's first letter never counts, whatever
    follows on that line. *)
Theorem marker_scan_line_anchored :
  (forall marker commit_msg,
     any_line_startswith marker (Py.splitlines commit_msg) = true <->
     exists line, In line (Py.splitlines commit_msg) /\
       Py.startswith (Py.lower (Py.strip line)) marker = true) /\
  (forall commit_msg,
     WifiUploadHook.is_commit_msg_valid commit_msg = true <->
     exists line, In line (Py.splitlines commit_msg) /\
       Py.startswith (Py.lower (Py.strip line)) (py "updated-overlayable") = true) /\
  (forall commit_msg,
     OverlayableHook.is_commit_msg_valid commit_msg = true <->
     exists line, In line (Py.splitlines commit_msg) /\
       Py.startswith (Py.lower (Py.strip line)) (py "updated-overlayable") = true) /\
  (forall commit_msg,
     WifiUploadHook.is_commit_msg_has_translation_bug_id commit_msg = true <->
     exists line, In line (Py.splitlines commit_msg) /\
       Py.startswith (Py.lower (Py.strip line)) (py "bug: 294871353") = true) /\
  (forall marker commit_msg pre m rest,
     spelling_of marker m -> all_space pre ->
     In (pre ++ m ++ rest) (Py.splitlines commit_msg) ->
     any_line_startswith marker (Py.splitlines commit_msg) = true) /\
  (forall p marker lines,
     (forall line, In line lines ->
        exists pre c rest, line = pre ++ c :: rest /\ all_space pre /\
          c < 128 /\ Py.is_space c = false /\ Py.ascii_lower c <> p) ->
     any_line_startswith (p :: marker) lines = false) /\
  WifiUploadHook.is_commit_msg_valid (py "see Updated-Overlayable docs") = false /\
  OverlayableHook.is_commit_msg_valid (py "see Updated-Overlayable docs") = false /\
  WifiUploadHook.is_commit_msg_valid (py "UPDATED-OVERLAYABLE: true") = true /\
  WifiUploadHook.is_commit_msg_valid (py "Updated-Overlayable: Not applicable") = true.
Proof.
  split; [intros; apply any_line_startswith_iff|].
  split; [intros; apply any_line_startswith_iff|].
  split; [intros; apply any_line_startswith_iff|].
  split; [intros; apply any_line_startswith_iff|].
  split.
  { intros marker commit_msg pre m rest Hm Hpre Hin.
    apply any_line_startswith_iff. exists (pre ++ m ++ rest).
    split; [assumption | now apply lowered_line_startswith]. }
  split; [|repeat split; reflexivity].
  intros p marker lines Hlines.
  destruct (any_line_startswith (p :: marker) lines) eqn:E; [|reflexivity].
  apply any_line_startswith_iff in E as (line & Hin & Hs).
  destruct (Hlines line Hin) as (pre & c & rest & -> & Hpre & Hc & Hsp & Hne).
  destruct (strip_line_with_marker pre [c] rest Hpre Hsp Hsp) as [x Hx].
  change (pre ++ [c] ++ rest) with (pre ++ c :: rest) in Hx.
  rewrite Hx in Hs. unfold Py.lower in Hs. simpl in Hs.
  apply N.ltb_lt in Hc. rewrite Hc in Hs. simpl in Hs.
  apply andb_true_iff in Hs as [Hs _]. apply N.eqb_eq in Hs. contradiction.
Qed.

(** X16.  Not upstream, and only untracked paths precede the strings file
    in the list of changed files: the classifier of the two-rule hook answers
    the strings file and the bug id rule is evaluated.  A message without the
    bug id line is blocked with the bug id guidance; with the bug id line, the
    acknowledgment rule decides. *)
Theorem wifi_bug_id_rule_when_strings_first
  (commit_msg : str) (pre post : list str) (w : World) :
  isUpstreamBranch w = false ->
  (forall g, In g pre -> ~ tracked g) ->
  let commit_files := pre ++ WifiUploadHook.STRING_FILE :: post in
  let r := WifiUploadHook.main commit_msg commit_files w in
  let bug := WifiUploadHook.is_commit_msg_has_translation_bug_id commit_msg in
  let ack := WifiUploadHook.is_commit_msg_valid commit_msg in
  WifiUploadHook.get_changed_resource_file commit_files
    = Some WifiUploadHook.STRING_FILE /\
  (bug = false ->
   r = (1%Z, emit (WifiUploadHook.bug_id_guidance WifiUploadHook.STRING_FILE) w)) /\
  (bug = true -> ack = false ->
   r = (1%Z, emit (WifiUploadHook.overlayable_guidance WifiUploadHook.STRING_FILE) w)) /\
  (bug = true -> ack = true -> r = (0%Z, w)).
Proof.
  intros Hup Hpre commit_files r bug ack. subst commit_files r bug ack.
  assert (Hf : WifiUploadHook.get_changed_resource_file
                 (pre ++ WifiUploadHook.STRING_FILE :: post)
               = Some WifiUploadHook.STRING_FILE).
  { rewrite wifi_classifier_find. apply find_first. exists pre, post.
    split; [reflexivity|]. split; [reflexivity|].
    intros g Hg. now apply trackedb_false_iff, Hpre. }
  split; [exact Hf|].
  rewrite wifi_main_run. unfold wifi_decision. rewrite Hup, Hf.
  change (truthy WifiUploadHook.STRING_FILE) with true.
  rewrite eqb_refl. cbn [negb].
  split; [|split].
  - intros ->. reflexivity.
  - intros -> ->. reflexivity.
  - intros -> ->. cbn. now rewrite emit_nil.
Qed.

(** C8.  Each classifier answers the first changed path that is on a tracked
    surface, nothing when there is none: the three files match by equality,
    the two directories by prefix, and the order in which one path is tested
    against the surfaces does not show, the two hooks classify alike.  So a
    change to [drawable/icon.png] with no acknowledgment in the message is
    blocked by both hooks, and the guidance opens with that path. *)
Theorem classifier_first_tracked_path :
  (forall commit_files,
     WifiUploadHook.get_changed_resource_file commit_files = None <->
     forall f, In f commit_files -> ~ tracked f) /\
  (forall commit_files f,
     WifiUploadHook.get_changed_resource_file commit_files = Some f <->
     exists pre post, commit_files = pre ++ f :: post /\ tracked f /\
       forall g, In g pre -> ~ tracked g) /\
  (forall commit_files,
     OverlayableHook.get_changed_resource_file WifiUploadHook.BASE_DIR commit_files
     = WifiUploadHook.get_changed_resource_file commit_files) /\
  (forall commit_msg w,
     isUpstreamBranch w = false ->
     WifiUploadHook.is_commit_msg_valid commit_msg = false ->
     WifiUploadHook.main commit_msg [icon_png] w
       = (1%Z, emit (WifiUploadHook.overlayable_guidance icon_png) w) /\
     OverlayableHook.main commit_msg [icon_png] w
       = (1%Z, emit (OverlayableHook.overlayable_guidance
                       WifiUploadHook.OVERLAY_FILE icon_png) w) /\
     hd [] (WifiUploadHook.overlayable_guidance icon_png)
       = py "This commit has changed: " ++ dquote ++ icon_png ++ dquote ++ py "." /\
     hd [] (OverlayableHook.overlayable_guidance WifiUploadHook.OVERLAY_FILE icon_png)
       = py "This commit has changed: " ++ dquote ++ icon_png ++ dquote ++ py ".").
Proof.
  split; [|split; [|split]].
  - intros commit_files. rewrite wifi_classifier_find, find_none_iff.
    split; intros H f Hf; apply trackedb_false_iff; auto.
  - intros commit_files f. rewrite wifi_classifier_find, find_first.
    split; intros (pre & post & E & Hf & Hpre); exists pre, post;
      (split; [exact E|]); (split; [now apply trackedb_iff|]);
      intros g Hg; apply trackedb_false_iff; auto.
  - intros commit_files.
    now rewrite wifi_classifier_find, overlayable_classifier_find.
  - intros commit_msg w Hup Hack.
    rewrite wifi_main_run, overlayable_main_run.
    unfold wifi_decision, overlayable_decision. rewrite Hup.
    change (WifiUploadHook.get_changed_resource_file [icon_png])
      with (Some icon_png).
    change (OverlayableHook.get_changed_resource_file WifiUploadHook.BASE_DIR [icon_png])
      with (Some icon_png).
    change (truthy icon_png) with true.
    change (Py.eqb icon_png WifiUploadHook.STRING_FILE) with false.
    change (OverlayableHook.is_commit_msg_valid commit_msg)
      with (WifiUploadHook.is_commit_msg_valid commit_msg).
    rewrite Hack. repeat split.
Qed.

(** C9.  Two runs of a hook on the same message and the same changed files,
    in worlds that give the same branch signal, end with the same exit status
    and print the same lines: nothing else of the world is read. *)
Theorem hooks_deterministic
  (commit_msg : str) (commit_files : list str) (w1 w2 : World) :
  isUpstreamBranch w1 = isUpstreamBranch w2 ->
  (fst (WifiUploadHook.main commit_msg commit_files w1)
     = fst (WifiUploadHook.main commit_msg commit_files w2) /\
   exists out,
     snd (WifiUploadHook.main commit_msg commit_files w1) = emit out w1 /\
     snd (WifiUploadHook.main commit_msg commit_files w2) = emit out w2) /\
  (fst (OverlayableHook.main commit_msg commit_files w1)
     = fst (OverlayableHook.main commit_msg commit_files w2) /\
   exists out,
     snd (OverlayableHook.main commit_msg commit_files w1) = emit out w1 /\
     snd (OverlayableHook.main commit_msg commit_files w2) = emit out w2).
Proof.
  intros Hup. rewrite !wifi_main_run, !overlayable_main_run. rewrite Hup.
  cbn [fst snd]. split; (split; [reflexivity|]); eexists; split; reflexivity.
Qed.

(** C10.  The bug id check is a prefix test on the stripped, lowercased
    line, and nothing else: it answers [True] exactly when some line so begins
    with the marker.  Every line that so begins satisfies it, whatever follows
    the digits: "Bug: 2948713530", the id of another bug, satisfies it and
    lets a change to the strings file through.  A line that begins otherwise
    does not: on a message of one trimmed ASCII line the check is the prefix
    test on its lowercase form, so a shorter number, a missing blank or a
    marker in the middle of the line fail, and a strings change is then
    blocked. *)
Theorem bug_id_rule_is_prefix_test :
  (forall commit_msg line,
     In line (Py.splitlines commit_msg) ->
     Py.startswith (Py.lower (Py.strip line)) (py "bug: 294871353") = true ->
     WifiUploadHook.is_commit_msg_has_translation_bug_id commit_msg = true) /\
  (forall rest,
     WifiUploadHook.is_commit_msg_has_translation_bug_id
       (py "Bug: 294871353" ++ rest) = true) /\
  WifiUploadHook.is_commit_msg_has_translation_bug_id (py "Bug: 2948713530") = true /\
  (forall w, isUpstreamBranch w = false ->
     WifiUploadHook.main
       (py "Bug: 2948713530" ++ LF ++ py "Updated-Overlayable: TRUE")
       [WifiUploadHook.STRING_FILE] w = (0%Z, w)) /\
  (forall commit_msg,
     WifiUploadHook.is_commit_msg_has_translation_bug_id commit_msg = true <->
     exists line, In line (Py.splitlines commit_msg) /\
       Py.startswith (Py.lower (Py.strip line)) (py "bug: 294871353") = true) /\
  (forall m,
     forallb (fun c => c <? 128) m = true ->
     forallb (fun c => negb (Py.is_linebreak c)) m = true ->
     Py.is_space (hd 32 m) = false -> Py.is_space (last m 32) = false ->
     WifiUploadHook.is_commit_msg_has_translation_bug_id m
       = Py.startswith (map Py.ascii_lower m) (py "bug: 294871353")) /\
  (forall commit_msg,
     (forall line, In line (Py.splitlines commit_msg) ->
        exists pre c rest, line = pre ++ c :: rest /\ all_space pre /\
          c < 128 /\ Py.is_space c = false /\ Py.ascii_lower c <> 98) ->
     WifiUploadHook.is_commit_msg_has_translation_bug_id commit_msg = false) /\
  WifiUploadHook.is_commit_msg_has_translation_bug_id (py "translate") = false /\
  WifiUploadHook.is_commit_msg_has_translation_bug_id (py "Bug: 29487135") = false /\
  WifiUploadHook.is_commit_msg_has_translation_bug_id (py "Bug:294871353") = false /\
  WifiUploadHook.is_commit_msg_has_translation_bug_id (py "see Bug: 294871353") = false /\
  (forall w, isUpstreamBranch w = false ->
     WifiUploadHook.main
       (py "Bug: 29487135" ++ LF ++ py "Updated-Overlayable: TRUE")
       [WifiUploadHook.STRING_FILE] w
     = (1%Z, emit (WifiUploadHook.bug_id_guidance WifiUploadHook.STRING_FILE) w)).
Proof.
  split; [|split; [|split; [|split; [|split; [|split; [|split]]]]]].
  - intros commit_msg line Hin Hs. apply any_line_startswith_iff.
    exists line. auto.
  - intros rest.
    destruct (splitlines_first_line (py "Bug: 294871353") rest)
      as (x & tl & E); [discriminate | reflexivity |].
    unfold WifiUploadHook.is_commit_msg_has_translation_bug_id. rewrite E.
    apply any_line_startswith_iff. exists (py "Bug: 294871353" ++ x).
    split; [now left|].
    apply (lowered_line_startswith _ [] (py "Bug: 294871353") x).
    + repeat split.
    + constructor.
  - reflexivity.
  - intros w Hup. run_hook Hup.
  - intros commit_msg. apply any_line_startswith_iff.
  - intros m Hascii Hbrk Hh Hl.
    now apply any_line_startswith_one_line.
  - intros commit_msg Hlines.
    apply (any_line_startswith_other_start 98). exact Hlines.
  - repeat split; try reflexivity.
    intros w Hup. run_hook Hup.
Qed.

End HookProperties.

(** * The properties on concrete runs *)

(** C1 on the third scenario: the strings file changed, the message is
    "translate". *)
Lemma wifi_strings_needs_both_markers_witness :
  isUpstreamBranch w_internal = false /\
  WifiUploadHook.get_changed_resource_file [WifiUploadHook.STRING_FILE]
    = Some WifiUploadHook.STRING_FILE /\
  @WifiUploadHook.main latin1 (py "translate") [WifiUploadHook.STRING_FILE] w_internal
    = (1%Z, emit (WifiUploadHook.bug_id_guidance WifiUploadHook.STRING_FILE)
              w_internal).
Proof.
  split; [reflexivity|]. split; [reflexivity|].
  destruct (@wifi_strings_needs_both_markers latin1 (py "translate")
              [WifiUploadHook.STRING_FILE] w_internal eq_refl eq_refl)
    as (_ & _ & Hbug & _).
  apply Hbug. reflexivity.
Defined.

(** C3 on a branch that tracks AOSP, with an empty message. *)
Lemma upstream_bypass_witness :
  isUpstreamBranch w_aosp = true /\
  @WifiUploadHook.main latin1 [] [WifiUploadHook.CONFIG_FILE] w_aosp = (0%Z, w_aosp) /\
  @OverlayableHook.main latin1 [] [WifiUploadHook.CONFIG_FILE] w_aosp = (0%Z, w_aosp).
Proof.
  split; [reflexivity|].
  exact (@upstream_bypass latin1 [] [WifiUploadHook.CONFIG_FILE] w_aosp eq_refl).
Defined.

(** C4 on a change to the overlayable file and to a source file. *)
Lemma untracked_changes_allowed_witness :
  isUpstreamBranch w_internal = false /\
  @WifiUploadHook.main latin1 (py "refactor")
     [WifiUploadHook.OVERLAY_FILE; py "service/java/Foo.java"] w_internal
    = (0%Z, w_internal) /\
  @OverlayableHook.main latin1 (py "refactor")
     [WifiUploadHook.OVERLAY_FILE; py "service/java/Foo.java"] w_internal
    = (0%Z, w_internal).
Proof.
  split; [reflexivity|].
  apply (@untracked_changes_allowed latin1); [reflexivity|].
  intros f [<- | [<- | []]]; repeat split; discriminate.
Defined.

(** C5 in the world [w_internal]. *)
Lemma config_change_scenarios_witness :
  isUpstreamBranch w_internal = false /\
  @WifiUploadHook.main latin1 msg_fix_default [WifiUploadHook.CONFIG_FILE] w_internal
    = (1%Z, emit (WifiUploadHook.overlayable_guidance WifiUploadHook.CONFIG_FILE)
              w_internal) /\
  @WifiUploadHook.main latin1 msg_fix_default_ack [WifiUploadHook.CONFIG_FILE] w_internal
    = (0%Z, w_internal).
Proof.
  split; [reflexivity|].
  destruct (@config_change_scenarios latin1 w_internal eq_refl)
    as (Ha & _ & Hb & _).
  split; [exact Ha | exact Hb].
Defined.

(** C6.  The two-rule hook misses the bug id rule it enforces on the
    strings file when another tracked file is listed first.  Off AOSP, with
    the config file and then the strings file changed and a message that has
    the acknowledgment line and no bug id line, the hook exits with 0 and
    prints nothing: the classifier stopped at the config file.  The same two
    files in the other order are blocked with the bug id guidance. *)
Lemma wifi_bug_id_rule_skipped_behind_config :
  isUpstreamBranch w_internal = false /\
  In WifiUploadHook.STRING_FILE config_then_strings /\
  forall U : UnicodeData,
    @WifiUploadHook.is_commit_msg_has_translation_bug_id U msg_ack_only = false /\
    @WifiUploadHook.main U msg_ack_only config_then_strings w_internal
      = (0%Z, w_internal) /\
    @WifiUploadHook.main U msg_ack_only strings_then_config w_internal
      = (1%Z, emit (WifiUploadHook.bug_id_guidance WifiUploadHook.STRING_FILE)
                w_internal).
Proof.
  split; [reflexivity|]. split; [right; left; reflexivity|].
  intros U. split; [reflexivity|].
  split; rewrite wifi_main_run; reflexivity.
Qed.

(** X16 on the strings file listed after an untracked path and before the
    config file. *)
Lemma wifi_bug_id_rule_when_strings_first_witness :
  isUpstreamBranch w_internal = false /\
  @WifiUploadHook.main latin1 msg_ack_only
     ([py "service/java/Foo.java"] ++ WifiUploadHook.STRING_FILE
        :: [WifiUploadHook.CONFIG_FILE]) w_internal
    = (1%Z, emit (WifiUploadHook.bug_id_guidance WifiUploadHook.STRING_FILE)
              w_internal).
Proof.
  split; [reflexivity|].
  assert (Hpre : forall g, In g [py "service/java/Foo.java"] -> ~ tracked g).
  { intros g [<- | []]. apply trackedb_false_iff. reflexivity. }
  destruct (@wifi_bug_id_rule_when_strings_first latin1 msg_ack_only
              [py "service/java/Foo.java"] [WifiUploadHook.CONFIG_FILE]
              w_internal eq_refl Hpre)
    as (_ & Hbug & _).
  apply Hbug. reflexivity.
Defined.

(** C9 on two worlds that differ in the branch listing and in what is
    already printed. *)
Lemma hooks_deterministic_witness :
  isUpstreamBranch w_internal = isUpstreamBranch w_internal_busy /\
  fst (@WifiUploadHook.main latin1 msg_fix_default [WifiUploadHook.CONFIG_FILE]
         w_internal)
  = fst (@WifiUploadHook.main latin1 msg_fix_default [WifiUploadHook.CONFIG_FILE]
           w_internal_busy).
Proof.
  split; [reflexivity|].
  exact (proj1 (proj1 (@hooks_deterministic latin1 msg_fix_default
                         [WifiUploadHook.CONFIG_FILE] w_internal w_internal_busy
                         eq_refl))).
Defined.

(** C2 on a message whose second line spells the marker in capitals, after
    two blanks and before free text. *)
Lemma marker_scan_line_anchored_witness :
  In (py "  " ++ py "UPDATED-overlayable" ++ py ": done")
     (Py.splitlines (py "fix" ++ LF ++ py "  UPDATED-overlayable: done" ++ LF)) /\
  @any_line_startswith latin1 (py "updated-overlayable")
     (Py.splitlines (py "fix" ++ LF ++ py "  UPDATED-overlayable: done" ++ LF))
    = true.
Proof.
  split; [right; left; reflexivity|].
  destruct (@marker_scan_line_anchored latin1) as (_ & _ & _ & _ & Hline & _).
  apply (Hline _ _ (py "  ") (py "UPDATED-overlayable") (py ": done")).
  - repeat split.
  - repeat constructor.
  - right; left; reflexivity.
Defined.

(** C8 on the fifth scenario, with the message "add icon". *)
Lemma classifier_first_tracked_path_witness :
  isUpstreamBranch w_internal = false /\
  @WifiUploadHook.is_commit_msg_valid latin1 (py "add icon") = false /\
  @WifiUploadHook.main latin1 (py "add icon") [icon_png] w_internal
    = (1%Z, emit (WifiUploadHook.overlayable_guidance icon_png) w_internal).
Proof.
  split; [reflexivity|]. split; [reflexivity|].
  destruct (@classifier_first_tracked_path latin1) as (_ & _ & _ & Hicon).
  exact (proj1 (Hicon (py "add icon") w_internal eq_refl eq_refl)).
Defined.

(** C10 on a bug number one digit longer, followed by more text, and on a
    bug number one digit shorter. *)
Lemma bug_id_rule_is_prefix_test_witness :
  @WifiUploadHook.is_commit_msg_has_translation_bug_id latin1
     (py "Bug: 294871353" ++ py "0 and others") = true /\
  @WifiUploadHook.is_commit_msg_has_translation_bug_id latin1
     (py "Bug: 29487135") = false.
Proof.
  destruct (@bug_id_rule_is_prefix_test latin1)
    as (_ & Hrest & _ & _ & _ & Hone & _).
  split; [apply Hrest|].
  rewrite (Hone (py "Bug: 29487135")); reflexivity.
Defined.

(** * Further properties of the hooks *)

(** ** The line scan, case by case *)

Lemma splitlines_scan_ind (brk : N -> bool) (P : list N -> list N -> Prop) :
  (forall line, P line []) ->
  (forall line c s, brk c = false -> P (c :: line) s -> P line (c :: s)) ->
  (forall line c, brk c = true -> P line [c]) ->
  (forall line c d s, brk c = true -> (c =? 13) && (d =? 10) = true ->
     P [] s -> P line (c :: d :: s)) ->
  (forall line c d s, brk c = true -> (c =? 13) && (d =? 10) = false ->
     P [] (d :: s) -> P line (c :: d :: s)) ->
  forall s line, P line s.
Proof.
  intros Hnil Hchar Hlast Hcrlf Hbrk s.
  assert (H : forall n s, (List.length s <= n)%nat -> forall line, P line s).
  { induction n as [|n IH]; intros [|c t] Hlen line; simpl in Hlen;
      try apply Hnil; try lia.
    destruct (brk c) eqn:Hc.
    - destruct t as [|d t]; [now apply Hlast|].
      destruct ((c =? 13) && (d =? 10)) eqn:Hcd.
      + apply Hcrlf; auto. apply IH. simpl in Hlen. lia.
      + apply Hbrk; auto. apply IH. lia.
    - apply Hchar; auto. apply IH. lia. }
  intros line. now apply (H (List.length s)).
Qed.

Lemma splitlines_scan_join_nil (brk : N -> bool) (sep : N) (b line : list N) :
  brk sep = true ->
  Py.splitlines_scan brk line (sep :: b) =
  rev line :: Py.splitlines_scan brk [] (after_break sep b).
Proof.
  intros Hsep. simpl. rewrite Hsep. destruct b as [|d b]; [reflexivity|].
  simpl. now destruct ((sep =? 13) && (d =? 10)).
Qed.

(** The lines of [a], a boundary, then [b]: the lines of [a] with its last
    line closed, then the lines of [b]. *)
Lemma splitlines_scan_join (brk : N -> bool) (sep : N) (b : list N) :
  brk sep = true ->
  forall a line,
    Py.splitlines_scan brk line (a ++ sep :: b) =
    Py.splitlines_scan brk line (a ++ [sep])
      ++ Py.splitlines_scan brk [] (after_break sep b).
Proof.
  intros Hsep.
  apply (splitlines_scan_ind brk (fun line a =>
           Py.splitlines_scan brk line (a ++ sep :: b) =
           Py.splitlines_scan brk line (a ++ [sep])
             ++ Py.splitlines_scan brk [] (after_break sep b))).
  - intros line. cbn beta.
    change ([] ++ sep :: b) with (sep :: b). change ([] ++ [sep]) with [sep].
    rewrite (splitlines_scan_join_nil brk sep b line Hsep).
    rewrite (splitlines_scan_join_nil brk sep [] line Hsep). reflexivity.
  - intros line c s Hc IH. simpl. rewrite Hc. exact IH.
  - intros line c Hc. simpl. rewrite Hc, Hsep.
    destruct ((c =? 13) && (sep =? 10)) eqn:Hcd.
    + apply andb_true_iff in Hcd as [_ Hs]. apply N.eqb_eq in Hs. subst sep.
      simpl. destruct b; reflexivity.
    + simpl. destruct b as [|d b]; [reflexivity|].
      simpl. now destruct ((sep =? 13) && (d =? 10)).
  - intros line c d s Hc Hcd IH. simpl. rewrite Hc, Hcd. simpl. now rewrite IH.
  - intros line c d s Hc Hcd IH. simpl. rewrite Hc, Hcd. simpl.
    simpl in IH. now rewrite IH.
Qed.

(** Closing the last line of [a] adds at most one empty line. *)
Lemma splitlines_scan_close (brk : N -> bool) (sep : N) :
  brk sep = true ->
  forall a line, exists extra,
    Py.splitlines_scan brk line (a ++ [sep]) =
    Py.splitlines_scan brk line a ++ extra /\ (extra = [] \/ extra = [[]]).
Proof.
  intros Hsep.
  apply (splitlines_scan_ind brk (fun line a => exists extra,
           Py.splitlines_scan brk line (a ++ [sep]) =
           Py.splitlines_scan brk line a ++ extra /\
           (extra = [] \/ extra = [[]]))).
  - intros line. simpl. rewrite Hsep. destruct line as [|x line].
    + exists [[]]. auto.
    + exists []. auto.
  - intros line c s Hc IH. simpl. rewrite Hc. exact IH.
  - intros line c Hc. simpl. rewrite Hc, Hsep.
    destruct ((c =? 13) && (sep =? 10)).
    + exists []. auto.
    + exists [[]]. auto.
  - intros line c d s Hc Hcd (extra & E & H). simpl. rewrite Hc, Hcd.
    exists extra. simpl. now rewrite E.
  - intros line c d s Hc Hcd (extra & E & H). simpl. rewrite Hc, Hcd.
    exists extra. simpl in E. simpl. now rewrite E.
Qed.

(** Every character of a line is a character of the text. *)
Lemma splitlines_scan_chars (brk : N -> bool) (x : N) :
  forall s line l,
    In l (Py.splitlines_scan brk line s) -> In x l -> In x line \/ In x s.
Proof.
  apply (splitlines_scan_ind brk (fun line s => forall l,
           In l (Py.splitlines_scan brk line s) -> In x l ->
           In x line \/ In x s)).
  - intros line l Hl Hx. destruct line as [|y line]; [destruct Hl|].
    destruct Hl as [<- | []]. left. now apply in_rev.
  - intros line c s Hc IH l Hl Hx. simpl in Hl. rewrite Hc in Hl.
    destruct (IH l Hl Hx) as [[<- | H] | H]; [right; now left | now left |].
    right. now right.
  - intros line c Hc l Hl Hx. simpl in Hl. rewrite Hc in Hl.
    destruct Hl as [<- | []]. left. now apply in_rev.
  - intros line c d s Hc Hcd IH l Hl Hx. simpl in Hl. rewrite Hc, Hcd in Hl.
    destruct Hl as [<- | Hl]; [left; now apply in_rev|].
    destruct (IH l Hl Hx) as [[] | H]. right. right. now right.
  - intros line c d s Hc Hcd IH l Hl Hx.
    assert (E : Py.splitlines_scan brk line (c :: d :: s) =
                rev line :: Py.splitlines_scan brk [] (d :: s)).
    { change (Py.splitlines_scan brk line (c :: d :: s))
        with (if brk c then
                rev line :: (if (c =? 13) && (d =? 10)
                             then Py.splitlines_scan brk [] s
                             else Py.splitlines_scan brk [] (d :: s))
              else Py.splitlines_scan brk (c :: line) (d :: s)).
      now rewrite Hc, Hcd. }
    rewrite E in Hl.
    destruct Hl as [<- | Hl]; [left; now apply in_rev|].
    destruct (IH l Hl Hx) as [[] | H]. right. now right.
Qed.

(** ** The message scan over joined texts *)

Lemma contains_iff (h n : list N) :
  Py.contains h n = true <-> exists u v, h = u ++ n ++ v.
Proof.
  induction h as [|c h IH].
  - simpl. rewrite orb_false_r, startswith_iff. split.
    + intros [t E]. exists [], t. exact E.
    + intros ([|x u] & v & E); [exists v; exact E | discriminate].
  - change (Py.contains (c :: h) n)
      with (Py.startswith (c :: h) n || Py.contains h n).
    rewrite orb_true_iff, startswith_iff, IH. split.
    + intros [[t E] | (u & v & E)].
      * exists [], t. exact E.
      * exists (c :: u), v. now rewrite E.
    + intros ([|x u] & v & E).
      * left. exists v. exact E.
      * right. inversion E; subst. now exists u, v.
Qed.

Lemma tracked_truthy (f : str) : tracked f -> truthy f = true.
Proof.
  intros [-> | [-> | [-> | [[t ->] | [t ->]]]]]; reflexivity.
Qed.

Lemma overlayable_guidance_same (f : str) :
  OverlayableHook.overlayable_guidance WifiUploadHook.OVERLAY_FILE f =
  WifiUploadHook.overlayable_guidance f.
Proof. reflexivity. Qed.

Section ScannerJoin.
Context {U : UnicodeData}.

Lemma any_line_startswith_app (marker : str) (l1 l2 : list str) :
  any_line_startswith marker (l1 ++ l2) =
  any_line_startswith marker l1 || any_line_startswith marker l2.
Proof.
  induction l1 as [|l l1 IH]; [reflexivity|].
  simpl. now destruct (Py.startswith (Py.lower (Py.strip l)) marker).
Qed.

Lemma any_line_startswith_blank (p : N) (marker : str) (lines : list str) :
  any_line_startswith (p :: marker) ([] :: lines) =
  any_line_startswith (p :: marker) lines.
Proof. reflexivity. Qed.

Lemma any_line_startswith_join (p : N) (marker a b : str) (sep : N) :
  Py.is_linebreak sep = true ->
  any_line_startswith (p :: marker) (Py.splitlines (a ++ sep :: b)) =
  any_line_startswith (p :: marker) (Py.splitlines a)
  || any_line_startswith (p :: marker) (Py.splitlines b).
Proof.
  intros Hsep. unfold Py.splitlines, str, codepoint in *.
  rewrite (splitlines_scan_join _ sep b Hsep a []).
  destruct (splitlines_scan_close _ sep Hsep a []) as (extra & -> & Hextra).
  rewrite !any_line_startswith_app.
  assert (Hx : any_line_startswith (p :: marker) extra = false)
    by (destruct Hextra as [-> | ->]; reflexivity).
  rewrite Hx, orb_false_r. f_equal.
  destruct b as [|d b]; [reflexivity|].
  unfold after_break.
  destruct ((sep =? 13) && (d =? 10)) eqn:Hcd; [|reflexivity].
  apply andb_true_iff in Hcd as [_ Hd]. apply N.eqb_eq in Hd. subst d.
  assert (E : Py.splitlines_scan Py.is_linebreak [] (10 :: b) =
              [] :: Py.splitlines_scan Py.is_linebreak [] b)
    by (destruct b; reflexivity).
  rewrite E. now rewrite any_line_startswith_blank.
Qed.

Lemma any_line_startswith_all_space (p : N) (marker msg : str) :
  all_space msg ->
  any_line_startswith (p :: marker) (Py.splitlines msg) = false.
Proof.
  intros Hmsg.
  destruct (any_line_startswith (p :: marker) (Py.splitlines msg)) eqn:E;
    [|reflexivity].
  apply any_line_startswith_iff in E as (line & Hin & Hs).
  assert (Hline : all_space line).
  { apply Forall_forall. intros x Hx.
    destruct (splitlines_scan_chars _ x msg [] line Hin Hx) as [[] | Hxm].
    unfold all_space in Hmsg. rewrite Forall_forall in Hmsg. now apply Hmsg. }
  unfold Py.strip in Hs.
  rewrite <- (app_nil_r line), lstrip_all_space in Hs by assumption.
  discriminate Hs.
Qed.

(** A message followed by lines that pass the checks passes them. *)
Lemma message_checks_join_helper (commit_msg ack bug : str) :
  Py.is_linebreak 10 = true ->
  WifiUploadHook.is_commit_msg_valid ack = true ->
  WifiUploadHook.is_commit_msg_has_translation_bug_id bug = true ->
  OverlayableHook.is_commit_msg_valid (commit_msg ++ LF ++ ack) = true /\
  WifiUploadHook.is_commit_msg_valid (commit_msg ++ LF ++ bug ++ LF ++ ack) = true /\
  WifiUploadHook.is_commit_msg_has_translation_bug_id
    (commit_msg ++ LF ++ bug ++ LF ++ ack) = true.
Proof.
  intros Hlf Ea Eb.
  unfold WifiUploadHook.is_commit_msg_valid, OverlayableHook.is_commit_msg_valid,
    WifiUploadHook.is_commit_msg_has_translation_bug_id in *.
  change (py "updated-overlayable") with (117 :: py "pdated-overlayable") in *.
  change (py "bug: 294871353") with (98 :: py "ug: 294871353") in *.
  change (commit_msg ++ LF ++ ack) with (commit_msg ++ 10 :: ack).
  change (commit_msg ++ LF ++ bug ++ LF ++ ack)
    with (commit_msg ++ 10 :: (bug ++ 10 :: ack)).
  rewrite !any_line_startswith_join by assumption.
  rewrite Ea, Eb. now rewrite !orb_true_r.
Qed.

End ScannerJoin.

(** ** The branch test *)

Lemma is_in_aosp_loop_find (branches : list bytes) :
  is_in_aosp_loop branches =
  match find (fun l => Py.startswith l star) branches with
  | Some b => Py.contains b aosp_tag
  | None => true
  end.
Proof.
  induction branches as [|l branches IH]; [reflexivity|].
  cbn [is_in_aosp_loop find].
  change (Py.startswith l star) with (Py.startswith l [42]).
  destruct (Py.startswith l [42]); [reflexivity | exact IH].
Qed.

(** X1.  [is_in_aosp] answers from the first line of the branch listing that
    starts with an asterisk: [True] exactly when there is no such line, or
    when that line has the text "[aosp/" somewhere in it.  It prints nothing
    and both hooks compute it alike. *)
Theorem is_in_aosp_first_starred_line (w : World) :
  snd (WifiUploadHook.is_in_aosp w) = w /\
  OverlayableHook.is_in_aosp w = WifiUploadHook.is_in_aosp w /\
  (fst (WifiUploadHook.is_in_aosp w) = true <->
   (forall l, In l (Py.bytes_splitlines (git_branch_vv w)) ->
      Py.startswith l star = false) \/
   exists pre b post,
     Py.bytes_splitlines (git_branch_vv w) = pre ++ b :: post /\
     (forall l, In l pre -> Py.startswith l star = false) /\
     Py.startswith b star = true /\
     exists u v, b = u ++ aosp_tag ++ v).
Proof.
  split; [reflexivity|]. split; [reflexivity|].
  rewrite wifi_is_in_aosp_run. cbn [fst]. unfold isUpstreamBranch.
  rewrite is_in_aosp_loop_find.
  destruct (find _ _) as [b|] eqn:E.
  - apply find_first in E as (pre & post & El & Hb & Hpre). split.
    + intros Hc. right. exists pre, b, post. repeat split; auto.
      now apply contains_iff.
    + intros [Hnone | (pre' & b' & post' & El' & Hpre' & Hb' & Hc)].
      * rewrite (Hnone b) in Hb; [discriminate|].
        rewrite El. apply in_or_app. right. now left.
      * assert (Ef : find (fun l => Py.startswith l star)
                       (Py.bytes_splitlines (git_branch_vv w)) = Some b').
        { apply find_first. now exists pre', post'. }
        assert (Ef' : find (fun l => Py.startswith l star)
                        (Py.bytes_splitlines (git_branch_vv w)) = Some b).
        { apply find_first. now exists pre, post. }
        rewrite Ef in Ef'. injection Ef' as <-. now apply contains_iff.
  - split; [|reflexivity]. intros _. left.
    now apply find_none_iff.
Qed.

Section FurtherHookProperties.
Context {U : UnicodeData}.

(** X2.  When the current-branch line of the listing has "[aosp/" anywhere
    after the asterisk, in the tracking information or in the commit
    subject, both hooks exit with 0 and print nothing, whatever the message
    and the changed files. *)
Theorem aosp_tag_on_current_line_bypasses
  (w : World) (pre post : list bytes) (a b : bytes)
  (commit_msg : str) (commit_files : list str) :
  Py.bytes_splitlines (git_branch_vv w)
    = pre ++ (star ++ a ++ aosp_tag ++ b) :: post ->
  (forall l, In l pre -> Py.startswith l star = false) ->
  isUpstreamBranch w = true /\
  WifiUploadHook.main commit_msg commit_files w = (0%Z, w) /\
  OverlayableHook.main commit_msg commit_files w = (0%Z, w).
Proof.
  intros El Hpre.
  assert (Hup : isUpstreamBranch w = true).
  { unfold isUpstreamBranch. rewrite is_in_aosp_loop_find.
    replace (find (fun l => Py.startswith l star)
               (Py.bytes_splitlines (git_branch_vv w)))
      with (Some (star ++ a ++ aosp_tag ++ b)).
    - apply contains_iff. exists (star ++ a), b. now rewrite <- app_assoc.
    - symmetry. apply find_first. exists pre, post.
      split; [exact El|]. split; [reflexivity | exact Hpre]. }
  split; [exact Hup|].
  rewrite wifi_main_run, overlayable_main_run.
  unfold wifi_decision, overlayable_decision. rewrite Hup.
  cbn. now rewrite emit_nil.
Qed.

(** X3.  Each message check distributes over texts joined by a line
    boundary: the joined message passes exactly when one of its parts does.
    So adding lines never revokes a marker, and the order of the parts does
    not matter. *)
Theorem message_checks_distribute_over_lines (a b : str) (sep : N) :
  Py.is_linebreak sep = true ->
  WifiUploadHook.is_commit_msg_valid (a ++ sep :: b)
    = WifiUploadHook.is_commit_msg_valid a || WifiUploadHook.is_commit_msg_valid b /\
  OverlayableHook.is_commit_msg_valid (a ++ sep :: b)
    = OverlayableHook.is_commit_msg_valid a || OverlayableHook.is_commit_msg_valid b /\
  WifiUploadHook.is_commit_msg_has_translation_bug_id (a ++ sep :: b)
    = WifiUploadHook.is_commit_msg_has_translation_bug_id a
      || WifiUploadHook.is_commit_msg_has_translation_bug_id b /\
  WifiUploadHook.is_commit_msg_valid (b ++ sep :: a)
    = WifiUploadHook.is_commit_msg_valid (a ++ sep :: b) /\
  WifiUploadHook.is_commit_msg_has_translation_bug_id (b ++ sep :: a)
    = WifiUploadHook.is_commit_msg_has_translation_bug_id (a ++ sep :: b).
Proof.
  intros Hsep.
  unfold WifiUploadHook.is_commit_msg_valid, OverlayableHook.is_commit_msg_valid,
    WifiUploadHook.is_commit_msg_has_translation_bug_id.
  change (py "updated-overlayable") with (117 :: py "pdated-overlayable").
  change (py "bug: 294871353") with (98 :: py "ug: 294871353").
  rewrite !any_line_startswith_join by assumption.
  repeat split; apply orb_comm.
Qed.

(** X4.  The guidance works: whatever the message was, adding one of the
    "Updated-Overlayable" lines the hook prints makes the one-rule hook exit
    with 0, and adding the "Bug" line and one of those lines makes the
    two-rule hook exit with 0, for any changed files. *)
Theorem guidance_lines_unblock
  (commit_msg f : str) (commit_files : list str) (w : World) (ack bug : str) :
  In ack (WifiUploadHook.overlayable_guidance f) ->
  Py.startswith ack (py "Updated-Overlayable") = true ->
  In bug (WifiUploadHook.bug_id_guidance f) ->
  Py.startswith bug (py "Bug") = true ->
  In ack (OverlayableHook.overlayable_guidance WifiUploadHook.OVERLAY_FILE f) /\
  OverlayableHook.main (commit_msg ++ LF ++ ack) commit_files w = (0%Z, w) /\
  WifiUploadHook.main (commit_msg ++ LF ++ bug ++ LF ++ ack) commit_files w
    = (0%Z, w).
Proof.
  intros Hack Hacks Hbug Hbugs.
  split; [now rewrite overlayable_guidance_same|].
  assert (Ea : WifiUploadHook.is_commit_msg_valid ack = true).
  { unfold WifiUploadHook.overlayable_guidance in Hack. simpl In in Hack.
    repeat (destruct Hack as [<- | Hack];
            [first [discriminate Hacks | reflexivity]|]).
    destruct Hack. }
  assert (Eb : WifiUploadHook.is_commit_msg_has_translation_bug_id bug = true).
  { unfold WifiUploadHook.bug_id_guidance in Hbug. simpl In in Hbug.
    repeat (destruct Hbug as [<- | Hbug];
            [first [discriminate Hbugs | reflexivity]|]).
    destruct Hbug. }
  assert (Hlf : Py.is_linebreak 10 = true) by reflexivity.
  destruct (message_checks_join_helper commit_msg ack bug Hlf Ea Eb)
    as (E1 & E2 & E3).
  rewrite wifi_main_run, overlayable_main_run.
  unfold wifi_decision, overlayable_decision.
  destruct (isUpstreamBranch w); [cbn; now rewrite emit_nil|].
  split.
  - destruct (OverlayableHook.get_changed_resource_file _ _) as [g|];
      [|cbn; now rewrite emit_nil].
    destruct (negb (truthy g)); [cbn; now rewrite emit_nil|].
    rewrite E1. cbn. now rewrite emit_nil.
  - destruct (WifiUploadHook.get_changed_resource_file _) as [g|];
      [|cbn; now rewrite emit_nil].
    destruct (negb (truthy g)); [cbn; now rewrite emit_nil|].
    rewrite E2, E3, andb_false_r. cbn. now rewrite emit_nil.
Qed.

(** X5.  The two-rule hook is the stricter one: whenever it exits with 0
    so does the one-rule hook, and the two hooks end alike, exit status and
    printed lines, unless the classifier answers the strings file and the
    message has no bug id line, where the two-rule hook blocks on its own
    rule. *)
Theorem wifi_hook_is_stricter
  (commit_msg : str) (commit_files : list str) (w : World) :
  (fst (WifiUploadHook.main commit_msg commit_files w) = 0%Z ->
   OverlayableHook.main commit_msg commit_files w = (0%Z, w)) /\
  (WifiUploadHook.main commit_msg commit_files w
     = OverlayableHook.main commit_msg commit_files w \/
   (isUpstreamBranch w = false /\
    WifiUploadHook.get_changed_resource_file commit_files
      = Some WifiUploadHook.STRING_FILE /\
    WifiUploadHook.is_commit_msg_has_translation_bug_id commit_msg = false /\
    WifiUploadHook.main commit_msg commit_files w
      = (1%Z, emit (WifiUploadHook.bug_id_guidance WifiUploadHook.STRING_FILE) w))).
Proof.
  rewrite wifi_main_run, overlayable_main_run.
  unfold wifi_decision, overlayable_decision.
  rewrite overlayable_classifier_find, <- wifi_classifier_find.
  change (OverlayableHook.is_commit_msg_valid commit_msg)
    with (WifiUploadHook.is_commit_msg_valid commit_msg).
  destruct (isUpstreamBranch w); [cbn; rewrite emit_nil; auto|].
  destruct (WifiUploadHook.get_changed_resource_file commit_files) as [f|];
    [|cbn; rewrite emit_nil; auto].
  destruct (negb (truthy f)); [cbn; rewrite emit_nil; auto|].
  change (OverlayableHook.overlayable_guidance WifiUploadHook.OVERLAY_FILE f)
    with (WifiUploadHook.overlayable_guidance f).
  destruct (Py.eqb f WifiUploadHook.STRING_FILE) eqn:Ef;
    destruct (WifiUploadHook.is_commit_msg_has_translation_bug_id commit_msg);
    destruct (WifiUploadHook.is_commit_msg_valid commit_msg);
    cbn [andb negb fst snd]; rewrite ?emit_nil;
    try (split; [auto; discriminate | left; reflexivity]);
    apply eqb_eq in Ef; subst f;
    (split; [discriminate | right; auto]).
Qed.

(** X6.  A hook that exits with 1 has printed one guidance block and no
    more, about the first path of the commit that lies on a tracked surface:
    the acknowledgment guidance, or, in the two-rule hook and for the strings
    file only, the bug id guidance.  Each block opens with the line that names
    that path. *)
Theorem blocked_names_first_tracked_path
  (commit_msg : str) (commit_files : list str) (w : World) :
  (fst (WifiUploadHook.main commit_msg commit_files w) = 1%Z ->
   exists pre f post,
     commit_files = pre ++ f :: post /\ tracked f /\
     (forall g, In g pre -> ~ tracked g) /\
     (snd (WifiUploadHook.main commit_msg commit_files w)
        = emit (WifiUploadHook.overlayable_guidance f) w \/
      (f = WifiUploadHook.STRING_FILE /\
       snd (WifiUploadHook.main commit_msg commit_files w)
         = emit (WifiUploadHook.bug_id_guidance f) w))) /\
  (fst (OverlayableHook.main commit_msg commit_files w) = 1%Z ->
   exists pre f post,
     commit_files = pre ++ f :: post /\ tracked f /\
     (forall g, In g pre -> ~ tracked g) /\
     snd (OverlayableHook.main commit_msg commit_files w)
       = emit (OverlayableHook.overlayable_guidance
                 WifiUploadHook.OVERLAY_FILE f) w) /\
  (forall overlay_file f,
     hd [] (WifiUploadHook.overlayable_guidance f) = this_commit_has_changed f /\
     hd [] (WifiUploadHook.bug_id_guidance f) = this_commit_has_changed f /\
     hd [] (OverlayableHook.overlayable_guidance overlay_file f)
       = this_commit_has_changed f).
Proof.
  rewrite wifi_main_run, overlayable_main_run.
  unfold wifi_decision, overlayable_decision.
  rewrite overlayable_classifier_find, wifi_classifier_find.
  split; [|split; [|repeat split]];
    (destruct (isUpstreamBranch w); [discriminate|]);
    (destruct (find trackedb commit_files) as [f|] eqn:Ef; [|discriminate]);
    apply find_first in Ef as (pre & post & E & Hf & Hpre);
    assert (Hpre' : forall g, In g pre -> ~ tracked g)
      by (intros g Hg; now apply trackedb_false_iff, Hpre);
    apply trackedb_iff in Hf;
    (destruct (negb (truthy f)); [discriminate|]).
  - destruct (Py.eqb f WifiUploadHook.STRING_FILE) eqn:Es;
      destruct (WifiUploadHook.is_commit_msg_has_translation_bug_id commit_msg);
      destruct (WifiUploadHook.is_commit_msg_valid commit_msg);
      cbn [andb negb fst snd]; try discriminate;
      intros _; exists pre, f, post; repeat split; auto.
    all: right; split; [now apply eqb_eq | reflexivity].
  - destruct (OverlayableHook.is_commit_msg_valid commit_msg); [discriminate|].
    intros _. exists pre, f, post. repeat split; auto.
Qed.

(** X7.  Both hooks look at the first tracked path of the commit only: what
    precedes it is untracked and what follows it is not read, so the run ends
    as the run on that one path does. *)
Theorem hooks_read_first_tracked_path_only
  (commit_msg : str) (pre post : list str) (f : str) (w : World) :
  tracked f -> (forall g, In g pre -> ~ tracked g) ->
  WifiUploadHook.main commit_msg (pre ++ f :: post) w
    = WifiUploadHook.main commit_msg [f] w /\
  OverlayableHook.main commit_msg (pre ++ f :: post) w
    = OverlayableHook.main commit_msg [f] w.
Proof.
  intros Hf Hpre.
  assert (E : find trackedb (pre ++ f :: post) = Some f).
  { apply find_first. exists pre, post. split; [reflexivity|].
    split; [now apply trackedb_iff|].
    intros g Hg. now apply trackedb_false_iff, Hpre. }
  assert (E1 : find trackedb [f] = Some f).
  { cbn [find]. apply trackedb_iff in Hf. now rewrite Hf. }
  rewrite !wifi_main_run, !overlayable_main_run.
  unfold wifi_decision, overlayable_decision.
  rewrite !wifi_classifier_find, !overlayable_classifier_find, E, E1.
  split; reflexivity.
Qed.

(** X8.  No line passes both message checks, so a message that passes both,
    as a change to the strings file needs in the two-rule hook, carries the
    two markers on two different lines. *)
Theorem both_markers_need_two_lines (commit_msg : str) :
  WifiUploadHook.is_commit_msg_has_translation_bug_id commit_msg = true ->
  WifiUploadHook.is_commit_msg_valid commit_msg = true ->
  (exists l1 l2,
     l1 <> l2 /\
     In l1 (Py.splitlines commit_msg) /\ In l2 (Py.splitlines commit_msg) /\
     Py.startswith (Py.lower (Py.strip l1)) (py "bug: 294871353") = true /\
     Py.startswith (Py.lower (Py.strip l2)) (py "updated-overlayable") = true) /\
  (2 <= List.length (Py.splitlines commit_msg))%nat.
Proof.
  intros Hbug Hack.
  apply any_line_startswith_iff in Hbug as (l1 & H1 & S1).
  apply any_line_startswith_iff in Hack as (l2 & H2 & S2).
  assert (Hne : l1 <> l2).
  { intros ->. apply startswith_iff in S1 as [t1 E1].
    apply startswith_iff in S2 as [t2 E2]. rewrite E1 in E2. discriminate. }
  split; [now exists l1, l2|].
  destruct (Py.splitlines commit_msg) as [|x [|y l]]; simpl in *;
    [tauto | | lia].
  destruct H1 as [<- | []], H2 as [<- | []]. congruence.
Qed.

(** X9.  Every tracked path lies under [values/], [drawable/] or [layout/]
    of the resource directory.  Qualified resource directories, as
    [values-fr/] or [drawable-hdpi/], are not tracked, nor is any path outside
    the three directories: a commit that stays clear of them passes both hooks
    whatever its message. *)
Theorem tracked_paths_lie_under_three_directories :
  (forall f, tracked f ->
     exists t, f = WifiUploadHook.BASE_DIR ++ py "values/" ++ t \/
               f = WifiUploadHook.BASE_DIR ++ py "drawable/" ++ t \/
               f = WifiUploadHook.BASE_DIR ++ py "layout/" ++ t) /\
  (forall q t, q <> 47 ->
     ~ tracked (WifiUploadHook.BASE_DIR ++ py "values" ++ q :: t) /\
     ~ tracked (WifiUploadHook.BASE_DIR ++ py "drawable" ++ q :: t) /\
     ~ tracked (WifiUploadHook.BASE_DIR ++ py "layout" ++ q :: t)) /\
  (forall commit_msg commit_files w,
     (forall f, In f commit_files ->
        Py.startswith f (WifiUploadHook.BASE_DIR ++ py "values/") = false /\
        Py.startswith f (WifiUploadHook.BASE_DIR ++ py "drawable/") = false /\
        Py.startswith f (WifiUploadHook.BASE_DIR ++ py "layout/") = false) ->
     WifiUploadHook.main commit_msg commit_files w = (0%Z, w) /\
     OverlayableHook.main commit_msg commit_files w = (0%Z, w)).
Proof.
  assert (Hdir : forall f, tracked f ->
     exists t, f = WifiUploadHook.BASE_DIR ++ py "values/" ++ t \/
               f = WifiUploadHook.BASE_DIR ++ py "drawable/" ++ t \/
               f = WifiUploadHook.BASE_DIR ++ py "layout/" ++ t).
  { intros f [-> | [-> | [-> | [[t ->] | [t ->]]]]].
    - exists (py "config.xml"). left. reflexivity.
    - exists (py "strings.xml"). left. reflexivity.
    - exists (py "styles.xml"). left. reflexivity.
    - exists t. right. left. reflexivity.
    - exists t. right. right. reflexivity. }
  split; [exact Hdir|]. split.
  - intros q t Hq. apply N.eqb_neq in Hq.
    repeat split; apply trackedb_false_iff; unfold trackedb; cbn;
      rewrite Hq; reflexivity.
  - intros commit_msg commit_files w Hfiles.
    assert (Hnone : find trackedb commit_files = None).
    { apply find_none_iff. intros f Hf. apply trackedb_false_iff. intros Ht.
      destruct (Hfiles f Hf) as (Hv & Hd & Hl).
      destruct (Hdir f Ht) as (t & [-> | [-> | ->]]).
      - rewrite (app_assoc WifiUploadHook.BASE_DIR (py "values/") t), startswith_app in Hv.
        discriminate.
      - rewrite (app_assoc WifiUploadHook.BASE_DIR (py "drawable/") t), startswith_app in Hd.
        discriminate.
      - rewrite (app_assoc WifiUploadHook.BASE_DIR (py "layout/") t), startswith_app in Hl.
        discriminate. }
    rewrite wifi_main_run, overlayable_main_run.
    unfold wifi_decision, overlayable_decision.
    rewrite wifi_classifier_find, overlayable_classifier_find, Hnone.
    destruct (isUpstreamBranch w); cbn; now rewrite emit_nil.
Qed.

(** X10.  A message of white space only, the empty message among them, passes
    no check: off AOSP, a commit whose first changed file is tracked is then
    blocked by both hooks. *)
Theorem blank_message_never_acknowledges (commit_msg : str) :
  all_space commit_msg ->
  WifiUploadHook.is_commit_msg_valid commit_msg = false /\
  OverlayableHook.is_commit_msg_valid commit_msg = false /\
  WifiUploadHook.is_commit_msg_has_translation_bug_id commit_msg = false /\
  (forall f rest w,
     isUpstreamBranch w = false -> tracked f ->
     fst (WifiUploadHook.main commit_msg (f :: rest) w) = 1%Z /\
     fst (OverlayableHook.main commit_msg (f :: rest) w) = 1%Z).
Proof.
  intros Hmsg.
  assert (Ea : WifiUploadHook.is_commit_msg_valid commit_msg = false)
    by (apply (any_line_startswith_all_space 117); exact Hmsg).
  assert (Eb : WifiUploadHook.is_commit_msg_has_translation_bug_id commit_msg = false)
    by (apply (any_line_startswith_all_space 98); exact Hmsg).
  split; [exact Ea|]. split; [exact Ea|]. split; [exact Eb|].
  intros f rest w Hup Hf.
  rewrite wifi_main_run, overlayable_main_run.
  unfold wifi_decision, overlayable_decision.
  rewrite Hup, wifi_classifier_find, overlayable_classifier_find.
  cbn [find]. apply trackedb_iff in Hf as Hfb. rewrite Hfb.
  rewrite (tracked_truthy f Hf).
  change (OverlayableHook.is_commit_msg_valid commit_msg)
    with (WifiUploadHook.is_commit_msg_valid commit_msg).
  rewrite Ea, Eb. cbn [negb].
  now destruct (Py.eqb f WifiUploadHook.STRING_FILE).
Qed.

End FurtherHookProperties.

(** ** The classifier for any base directory *)

Lemma overlayable_classifier_cons (base_dir f : str) (rest : list str) :
  OverlayableHook.get_changed_resource_file base_dir (f :: rest) =
  if Py.eqb f (base_dir ++ py "values/config.xml") then Some f
  else if Py.eqb f (base_dir ++ py "values/strings.xml") then Some f
  else if Py.eqb f (base_dir ++ py "values/styles.xml") then Some f
  else if Py.startswith f (base_dir ++ py "drawable/") then Some f
  else if Py.startswith f (base_dir ++ py "layout/") then Some f
  else OverlayableHook.get_changed_resource_file base_dir rest.
Proof. reflexivity. Qed.

Lemma under_base (base_dir t : str) :
  t <> [] ->
  Py.startswith (base_dir ++ t) base_dir = true /\ truthy (base_dir ++ t) = true.
Proof.
  intros Ht. split; [apply startswith_app|].
  destruct base_dir; [|reflexivity]. destruct t; [congruence | reflexivity].
Qed.

(** X11.  Whatever the base directory, what the classifier answers is one of
    the changed files, lies under the base directory and is not the empty
    string: the test [not changed_file] of [main] fires on [None] only. *)
Theorem classifier_answer_is_a_changed_file
  (base_dir : str) (commit_files : list str) (f : str) :
  (OverlayableHook.get_changed_resource_file base_dir commit_files = Some f ->
   In f commit_files /\ Py.startswith f base_dir = true /\ truthy f = true) /\
  (WifiUploadHook.get_changed_resource_file commit_files = Some f ->
   In f commit_files /\ Py.startswith f WifiUploadHook.BASE_DIR = true /\
   truthy f = true).
Proof.
  assert (Hgen : forall base_dir,
    OverlayableHook.get_changed_resource_file base_dir commit_files = Some f ->
    In f commit_files /\ Py.startswith f base_dir = true /\ truthy f = true).
  { clear base_dir. intros base_dir.
    induction commit_files as [|g files IH]; [discriminate|].
    rewrite overlayable_classifier_cons.
    destruct (Py.eqb g (base_dir ++ py "values/config.xml")) eqn:E1.
    { intros [= <-]. apply eqb_eq in E1. split; [now left|].
      rewrite E1. apply under_base. discriminate. }
    destruct (Py.eqb g (base_dir ++ py "values/strings.xml")) eqn:E2.
    { intros [= <-]. apply eqb_eq in E2. split; [now left|].
      rewrite E2. apply under_base. discriminate. }
    destruct (Py.eqb g (base_dir ++ py "values/styles.xml")) eqn:E3.
    { intros [= <-]. apply eqb_eq in E3. split; [now left|].
      rewrite E3. apply under_base. discriminate. }
    destruct (Py.startswith g (base_dir ++ py "drawable/")) eqn:E4.
    { intros [= <-]. apply startswith_iff in E4 as [t ->].
      split; [now left|]. rewrite <- app_assoc. apply under_base. discriminate. }
    destruct (Py.startswith g (base_dir ++ py "layout/")) eqn:E5.
    { intros [= <-]. apply startswith_iff in E5 as [t ->].
      split; [now left|]. rewrite <- app_assoc. apply under_base. discriminate. }
    intros H. destruct (IH H) as (Hin & Hs). split; [now right | exact Hs]. }
  split; [apply Hgen|].
  rewrite wifi_classifier_find, <- overlayable_classifier_find. apply Hgen.
Qed.

(** * Properties of [WifiP2pConfig.to_dict] *)

Lemma dict_items_keys (c : DirectConstants.WifiP2pConfig) :
  map fst (DirectConstants.dict_items c) = field_names.
Proof. reflexivity. Qed.

Lemma field_names_NoDup : NoDup field_names.
Proof.
  unfold field_names. cbn [map fst DirectConstants.dict_items].
  repeat constructor; simpl; intuition discriminate.
Qed.

Lemma keys_of_filter_NoDup {V W} (p : str * V -> bool) (g : V -> W)
  (l : list (str * V)) :
  NoDup (map fst l) ->
  NoDup (map fst (map (fun kv => (fst kv, g (snd kv))) (filter p l))).
Proof.
  rewrite map_map. cbn [fst].
  induction l as [|[k v] l IH]; intros Hl; [constructor|].
  inversion Hl as [|? ? Hk Hl']; subst. cbn [filter].
  destruct (p (k, v)); [|now apply IH].
  cbn [map fst]. constructor; [|now apply IH].
  intros Hin. apply Hk. apply in_map_iff in Hin as ([k' v'] & <- & Hf).
  apply filter_In in Hf as [Hf _]. apply in_map_iff. now exists (k', v').
Qed.

(** X12.  [to_dict] keeps exactly the fields that are set, in declaration
    order and each under its own name once: no key overwrites another, so
    the result has at most seven entries and is empty for the default
    configuration.  Its values are booleans, integers and strings only: never
    [None], never a member of an enumeration. *)
Theorem to_dict_keeps_the_set_fields (c : DirectConstants.WifiP2pConfig) :
  DirectConstants.to_dict c =
    map (fun kv => (fst kv, DirectConstants.value_if_Enum (snd kv)))
        (filter (fun kv => DirectConstants.is_not_None (snd kv))
                (DirectConstants.dict_items c)) /\
  NoDup (map fst (DirectConstants.to_dict c)) /\
  (List.length (DirectConstants.to_dict c) <= 7)%nat /\
  DirectConstants.to_dict DirectConstants.default_config = [] /\
  (forall k v, In (k, v) (DirectConstants.to_dict c) ->
     In k field_names /\
     ((exists b, v = DirectConstants.PyBool b) \/
      (exists n, v = DirectConstants.PyInt n) \/
      (exists s, v = DirectConstants.PyStr s))).
Proof.
  assert (E : DirectConstants.to_dict c =
    map (fun kv => (fst kv, DirectConstants.value_if_Enum (snd kv)))
        (filter (fun kv => DirectConstants.is_not_None (snd kv))
                (DirectConstants.dict_items c))).
  { destruct c as [[?|] [?|] [?|] [?|] [?|] [?|] [?|]]; reflexivity. }
  split; [exact E|]. rewrite E. split; [|split; [|split]].
  - apply keys_of_filter_NoDup. rewrite dict_items_keys. exact field_names_NoDup.
  - rewrite length_map.
    pose proof (filter_length_le
                  (fun kv => DirectConstants.is_not_None (snd kv))
                  (DirectConstants.dict_items c)) as H.
    exact H.
  - reflexivity.
  - intros k v Hin. apply in_map_iff in Hin as ([k' v'] & [= <- <-] & Hf).
    apply filter_In in Hf as [Hin Hv]. split.
    + rewrite <- (dict_items_keys c). apply in_map_iff. now exists (k', v').
    + cbn [snd] in *. destruct v'; cbn; try discriminate Hv; eauto.
Qed.

(** X13.  Looking a field up in the result gives its value when it is set,
    a member of an enumeration as its integer value, and nothing when it is
    not set.  The dictionary determines the configuration: reading the seven
    keys back rebuilds it, so two configurations with the same dictionary are
    the same. *)
Theorem to_dict_lookup_and_round_trip (c : DirectConstants.WifiP2pConfig) :
  let d := DirectConstants.to_dict c in
  PyData.dict_get d (py "persistent_mode")
    = option_map DirectConstants.PyBool (DirectConstants.persistent_mode c) /\
  PyData.dict_get d (py "device_address")
    = option_map DirectConstants.PyStr (DirectConstants.device_address c) /\
  PyData.dict_get d (py "group_client_ip_provisioning_mode")
    = option_map (fun m => DirectConstants.PyInt
                             (DirectConstants.IpProvisioningMode_value m))
        (DirectConstants.group_client_ip_provisioning_mode c) /\
  PyData.dict_get d (py "group_operating_band")
    = option_map (fun b => DirectConstants.PyInt (DirectConstants.Band_value b))
        (DirectConstants.group_operating_band c) /\
  PyData.dict_get d (py "group_operating_frequency")
    = option_map DirectConstants.PyInt
        (DirectConstants.group_operating_frequency c) /\
  PyData.dict_get d (py "network_name")
    = option_map DirectConstants.PyStr (DirectConstants.network_name c) /\
  PyData.dict_get d (py "passphrase")
    = option_map DirectConstants.PyStr (DirectConstants.passphrase c) /\
  config_of_dict d = c /\
  (forall c', DirectConstants.to_dict c' = d -> c' = c).
Proof.
  assert (Hrt : forall x, config_of_dict (DirectConstants.to_dict x) = x).
  { intros [[?|] [?|] [[]|] [[]|] [?|] [?|] [?|]]; reflexivity. }
  cbv zeta. repeat split;
    try (destruct c as [[?|] [?|] [?|] [?|] [?|] [?|] [?|]]; reflexivity).
  - apply Hrt.
  - intros c' E. rewrite <- (Hrt c'), E. apply Hrt.
Qed.

(** * Properties of the entry point of the test scripts *)

Lemma list_in_iff (x : str) (l : list str) :
  PyData.list_in x l = true <-> In x l.
Proof.
  unfold PyData.list_in. rewrite existsb_exists. split.
  - intros (y & Hy & E). apply eqb_eq in E. now subst.
  - intros H. exists x. split; [exact H | apply eqb_refl].
Qed.

Lemma list_index_first (x : str) (pre post : list str) :
  ~ In x pre ->
  PyData.list_index x (pre ++ x :: post) = Some (List.length pre).
Proof.
  induction pre as [|y pre IH]; intros Hpre; simpl.
  - now rewrite eqb_refl.
  - destruct (Py.eqb y x) eqn:E.
    + apply eqb_eq in E. subst. exfalso. apply Hpre. now left.
    + rewrite IH; [reflexivity|]. intros H. apply Hpre. now right.
Qed.

Lemma skipn_past (x : str) (pre post : list str) :
  skipn (List.length pre + 1) (pre ++ x :: post) = post.
Proof.
  induction pre as [|y pre IH]; [reflexivity | exact IH].
Qed.

Lemma in_first_split (x : str) (l : list str) :
  In x l -> exists pre post, l = pre ++ x :: post /\ ~ In x pre.
Proof.
  induction l as [|y l IH]; [intros []|].
  destruct (Py.eqb y x) eqn:E.
  - apply eqb_eq in E. subst. intros _. exists [], l. now split.
  - apply eqb_neq in E. intros [-> | H]; [congruence|].
    destruct (IH H) as (pre & post & -> & Hpre).
    exists (y :: pre), post. split; [reflexivity|].
    intros [-> | H']; [congruence | now apply Hpre].
Qed.

(** X14.  With a program name other than "--" and a first "--" after it, the
    entry point keeps the program name and what follows that "--", and drops
    the "--" and everything between: later separators stay. *)
Theorem take_test_args_keeps_what_follows_the_separator
  (prog : str) (before after : list str) :
  prog <> py "--" -> ~ In (py "--") before ->
  WifiAwareTest.take_test_args (prog :: before ++ py "--" :: after)
    = Some (prog :: after).
Proof.
  intros Hprog Hbefore. unfold WifiAwareTest.take_test_args.
  replace (PyData.list_in (py "--") (prog :: before ++ py "--" :: after))
    with true.
  - change (prog :: before ++ py "--" :: after)
      with ((prog :: before) ++ py "--" :: after).
    rewrite (list_index_first (py "--") (prog :: before) after).
    + cbn [List.length firstn app]. f_equal. f_equal.
      exact (skipn_past (py "--") before after).
    + intros [E | H]; [now apply Hprog | now apply Hbefore].
  - symmetry. apply list_in_iff. right. apply in_or_app. right. now left.
Qed.

(** X15.  The entry point never raises: the index is asked only after the
    membership test.  Without "--" the arguments stay as they are, and so
    they do when "--" is the program name itself; in every case the program
    name is kept, no argument is invented and none is added. *)
Theorem take_test_args_never_raises (argv : list str) :
  exists argv',
    WifiAwareTest.take_test_args argv = Some argv' /\
    (~ In (py "--") argv -> argv' = argv) /\
    (hd_error argv = Some (py "--") -> argv' = argv) /\
    hd_error argv' = hd_error argv /\
    (List.length argv' <= List.length argv)%nat /\
    (forall x, In x argv' -> In x argv).
Proof.
  unfold WifiAwareTest.take_test_args.
  destruct (PyData.list_in (py "--") argv) eqn:Hin.
  - apply list_in_iff in Hin.
    destruct (in_first_split _ _ Hin) as (pre & post & -> & Hpre).
    rewrite (list_index_first _ pre post Hpre).
    destruct pre as [|prog pre].
    + exists (py "--" :: post). repeat split; auto.
    + exists (prog :: post).
      split; [cbn [List.length firstn app]; do 2 f_equal;
              exact (skipn_past (py "--") pre post)|].
      split; [intros H; exfalso; apply H; right; apply in_or_app; right; now left|].
      split; [intros [= ->]; exfalso; apply Hpre; now left|].
      split; [reflexivity|]. split.
      * cbn [List.length]. rewrite length_app. cbn [List.length]. lia.
      * intros x [<- | Hx]; [now left|].
        right. apply in_or_app. right. now right.
  - exists argv. repeat split; auto.
Qed.

(** * The further properties on concrete runs *)

(** X2 on a branch off AOSP whose last commit reverts an AOSP merge. *)
Lemma aosp_tag_on_current_line_bypasses_witness :
  isUpstreamBranch w_subject_tag = true /\
  @WifiUploadHook.main latin1 [] [WifiUploadHook.CONFIG_FILE] w_subject_tag
    = (0%Z, w_subject_tag).
Proof.
  destruct (@aosp_tag_on_current_line_bypasses latin1 w_subject_tag
              [py "  main 1a2b3c4 [goog/main] wip"] []
              (py " work 5d6e7f8 [goog/main] Revert ") (py "main] merge")
              [] [WifiUploadHook.CONFIG_FILE] eq_refl)
    as (Hup & Hmain & _).
  - intros l [<- | []]. reflexivity.
  - split; [exact Hup | exact Hmain].
Defined.

(** X3 on a subject line followed by the acknowledgment. *)
Lemma message_checks_distribute_over_lines_witness :
  Py.is_linebreak 10 = true /\
  @WifiUploadHook.is_commit_msg_valid latin1 (py "fix" ++ 10 :: msg_ack_only)
    = @WifiUploadHook.is_commit_msg_valid latin1 (py "fix")
      || @WifiUploadHook.is_commit_msg_valid latin1 msg_ack_only.
Proof.
  split; [reflexivity|].
  exact (proj1 (@message_checks_distribute_over_lines latin1 (py "fix")
                  msg_ack_only 10 eq_refl)).
Defined.

(** X4 on the second acknowledgment line of the guidance and the bug line. *)
Lemma guidance_lines_unblock_witness :
  @WifiUploadHook.main latin1
     (py "translate" ++ LF ++ py "Bug: 294871353" ++ LF ++
      py "Updated-Overlayable: Not applicable - changing default value")
     [WifiUploadHook.STRING_FILE] w_internal
    = (0%Z, w_internal).
Proof.
  refine (proj2 (proj2 (@guidance_lines_unblock latin1 (py "translate")
            WifiUploadHook.STRING_FILE [WifiUploadHook.STRING_FILE] w_internal
            (py "Updated-Overlayable: Not applicable - changing default value")
            (py "Bug: 294871353") _ eq_refl _ eq_refl))).
  - do 10 right. left. reflexivity.
  - do 4 right. left. reflexivity.
Defined.

(** X5 where the hooks differ: the strings file with the acknowledgment and
    no bug id. *)
Lemma wifi_hook_is_stricter_witness :
  @WifiUploadHook.main latin1 msg_ack_only [WifiUploadHook.STRING_FILE] w_internal
    = (1%Z, emit (WifiUploadHook.bug_id_guidance WifiUploadHook.STRING_FILE)
              w_internal) /\
  @OverlayableHook.main latin1 msg_ack_only [WifiUploadHook.STRING_FILE] w_internal
    = (0%Z, w_internal).
Proof.
  destruct (proj2 (@wifi_hook_is_stricter latin1 msg_ack_only
                     [WifiUploadHook.STRING_FILE] w_internal))
    as [E | (_ & _ & _ & H)].
  - vm_compute in E. discriminate E.
  - split; [exact H | reflexivity].
Defined.

(** X6 on the config file listed after a source file. *)
Lemma blocked_names_first_tracked_path_witness :
  fst (@WifiUploadHook.main latin1 msg_fix_default
         [foo_java; WifiUploadHook.CONFIG_FILE] w_internal) = 1%Z /\
  exists pre f post,
    [foo_java; WifiUploadHook.CONFIG_FILE] = pre ++ f :: post /\ tracked f /\
    (forall g, In g pre -> ~ tracked g) /\
    (snd (@WifiUploadHook.main latin1 msg_fix_default
            [foo_java; WifiUploadHook.CONFIG_FILE] w_internal)
       = emit (WifiUploadHook.overlayable_guidance f) w_internal \/
     (f = WifiUploadHook.STRING_FILE /\
      snd (@WifiUploadHook.main latin1 msg_fix_default
             [foo_java; WifiUploadHook.CONFIG_FILE] w_internal)
        = emit (WifiUploadHook.bug_id_guidance f) w_internal)).
Proof.
  split; [reflexivity|].
  exact (proj1 (@blocked_names_first_tracked_path latin1 msg_fix_default
                  [foo_java; WifiUploadHook.CONFIG_FILE] w_internal) eq_refl).
Defined.

(** X9 on a translated strings file and a density-qualified drawable. *)
Lemma tracked_paths_lie_under_three_directories_witness :
  ~ tracked strings_fr /\
  @WifiUploadHook.main latin1 [] [strings_fr; icon_hdpi] w_internal
    = (0%Z, w_internal) /\
  @OverlayableHook.main latin1 [] [strings_fr; icon_hdpi] w_internal
    = (0%Z, w_internal).
Proof.
  destruct (@tracked_paths_lie_under_three_directories latin1)
    as (_ & Hq & Hmain).
  split.
  - apply (Hq 45 (py "fr/strings.xml")). discriminate.
  - apply Hmain. intros f [<- | [<- | []]]; repeat split.
Defined.

(** X11 on a base directory of another project. *)
Lemma classifier_answer_is_a_changed_file_witness :
  OverlayableHook.get_changed_resource_file (py "res/")
    [py "README"; py "res/layout/main.xml"] = Some (py "res/layout/main.xml") /\
  In (py "res/layout/main.xml") [py "README"; py "res/layout/main.xml"] /\
  Py.startswith (py "res/layout/main.xml") (py "res/") = true /\
  truthy (py "res/layout/main.xml") = true.
Proof.
  split; [reflexivity|].
  exact (proj1 (classifier_answer_is_a_changed_file (py "res/")
                  [py "README"; py "res/layout/main.xml"]
                  (py "res/layout/main.xml")) eq_refl).
Defined.

(** X10 on a message of blanks, a line feed, a tab and a no-break space. *)
Lemma blank_message_never_acknowledges_witness :
  all_space msg_blank /\
  fst (@OverlayableHook.main latin1 msg_blank [WifiUploadHook.STYLES_FILE]
         w_internal) = 1%Z.
Proof.
  assert (H : all_space msg_blank) by (repeat constructor).
  split; [exact H|].
  destruct (@blank_message_never_acknowledges latin1 msg_blank H)
    as (_ & _ & _ & Hmain).
  apply (Hmain WifiUploadHook.STYLES_FILE [] w_internal eq_refl).
  right. right. left. reflexivity.
Defined.

(** X14 on a command line with options before the separator and a second
    separator after it. *)
Lemma take_test_args_keeps_what_follows_the_separator_witness :
  WifiAwareTest.take_test_args argv_with_test_args
    = Some [py "wifi_aware_test.py"; py "--verbose"; py "--"; py "x"].
Proof.
  apply (take_test_args_keeps_what_follows_the_separator
           (py "wifi_aware_test.py") [py "-c"; py "config.yml"]
           [py "--verbose"; py "--"; py "x"]).
  - discriminate.
  - intros [E | [E | []]]; discriminate E.
Defined.

(** X7 on the strings file between a source file and the config file. *)
Lemma hooks_read_first_tracked_path_only_witness :
  @WifiUploadHook.main latin1 msg_ack_only
     ([foo_java] ++ WifiUploadHook.STRING_FILE :: [WifiUploadHook.CONFIG_FILE])
     w_internal
  = @WifiUploadHook.main latin1 msg_ack_only [WifiUploadHook.STRING_FILE]
      w_internal.
Proof.
  refine (proj1 (@hooks_read_first_tracked_path_only latin1 msg_ack_only
                   [foo_java] [WifiUploadHook.CONFIG_FILE]
                   WifiUploadHook.STRING_FILE w_internal _ _)).
  - right. left. reflexivity.
  - intros g [<- | []]. apply trackedb_false_iff. reflexivity.
Defined.

(** X8 on the shortest message that passes both checks. *)
Lemma both_markers_need_two_lines_witness :
  @WifiUploadHook.is_commit_msg_has_translation_bug_id latin1 msg_both_markers
    = true /\
  @WifiUploadHook.is_commit_msg_valid latin1 msg_both_markers = true /\
  (2 <= List.length (Py.splitlines msg_both_markers))%nat.
Proof.
  split; [reflexivity|]. split; [reflexivity|].
  exact (proj2 (@both_markers_need_two_lines latin1 msg_both_markers
                  eq_refl eq_refl)).
Defined.
